(** * golobby/sql: the SQL statement builder and the relation resolver

    A shallow embedding of [builder/query.go] and [orm.go].

    Go strings are [string]; [strings.Join] is [Join]; a Go [error] is its
    message; a [(T, error)] result is a pair whose second component is
    [None] for a nil error.  The database handle is modelled by the list
    of calls it has received, so that "the database was not touched"
    is the statement that this list did not grow. *)

From Stdlib Require Import String Ascii List ZArith Lia Bool Decimal DecimalString.
From stdpp Require Import gmap strings.

Open Scope string_scope.
Open Scope list_scope.

(** ** Go runtime pieces shared by both packages *)

(** [strings.Join(elems, sep)] *)
Definition Join (elems : list string) (sep : string) : string :=
  String.concat sep elems.

(** [fmt.Sprint] of an [int]: its decimal rendering.  The integers printed
    count the elements of a slice from 1 or 2, so they stay far from the
    point where an [int] wraps around. *)
Definition Sprint (n : Z) : string := NilEmpty.string_of_int (Z.to_int n).

(** A Go [error] value, identified by its message. *)
Definition error := string.

(** [fmt.Errorf] with a constant format. *)
Definition Errorf (msg : string) : error := msg.

(** Values of type [interface{}] that travel as statement arguments.
    [VSlice] is a [[]interface{}] boxed into a single [interface{}]. *)
#[warnings="-register-all"] Inductive value :=
| VNil
| VInt (z : Z)
| VStr (s : string)
| VSlice (vs : list value).

(** ** Package [builder] (builder/query.go) *)

Module builder.

(** The clause structs, with the fields [query.go] fills in.  The [parent]
    back-pointer of every clause is the query that owns it; a clause handle
    is modelled below as the owning query together with the position of
    the clause in it. *)

Record selectClause := mkSelect { distinct : bool; sel_columns : list string }.
Record orderbyClause := mkOrderBy { ob_columns : list string; desc : bool }.
Record groupByClause := mkGroupBy { gb_columns : list string }.

(** Modelled from the spec: the third field of [joinClause], the join
    condition; [query.go] fills in the join type and the table, and a join
    clause is "type + table + condition" (spec, section 3). *)
Record joinClause := mkJoin { joinType : string; join_table : string; join_conds : string }.

(** [type whereClause struct { parent *query; conds []string }] *)
Record whereClause := mkWhere { conds : list string }.

(** [type query struct].  A nil pointer is [None].  The slices [filters]
    and [joins] are only ever grown by [append], so they are nil exactly
    when they are empty: the nil test is the test against [[]]. *)
Record query := mkQuery {
  table : string;
  projected : option selectClause;
  filters : list whereClause;
  orderBy : option orderbyClause;
  groupBy : option groupByClause;
  joins : list joinClause
}.

Definition set_table (q : query) (t : string) : query :=
  mkQuery t (projected q) (filters q) (orderBy q) (groupBy q) (joins q).
Definition set_projected (q : query) (p : option selectClause) : query :=
  mkQuery (table q) p (filters q) (orderBy q) (groupBy q) (joins q).
Definition set_filters (q : query) (fs : list whereClause) : query :=
  mkQuery (table q) (projected q) fs (orderBy q) (groupBy q) (joins q).
Definition set_orderBy (q : query) (o : option orderbyClause) : query :=
  mkQuery (table q) (projected q) (filters q) o (groupBy q) (joins q).
Definition set_joins (q : query) (js : list joinClause) : query :=
  mkQuery (table q) (projected q) (filters q) (orderBy q) (groupBy q) js.

(** [func NewQuery() *query] *)
Definition NewQuery : query := mkQuery "" None [] None None [].

(** [func (q *query) Table(t string) *query] *)
Definition Table (q : query) (t : string) : query := set_table q t.

(** A [*whereClause] handed back to the caller aliases an element of
    [q.filters]: the handle is the owning query and the element's index,
    and a write through the handle is a write into the query. *)
Record whereRef := mkWhereRef { w_parent : query; w_idx : nat }.

(** [func (q *query) Where(parts ...string) *whereClause] *)
Definition Where (q : query) (parts : list string) : whereRef :=
  let w := mkWhere [Join parts " "] in
  mkWhereRef (set_filters q (filters q ++ [w])) (length (filters q)).

Definition append_cond (c : string) (w : whereClause) : whereClause :=
  mkWhere (conds w ++ [c]).

Definition where_append (w : whereRef) (c : string) : whereRef :=
  mkWhereRef
    (set_filters (w_parent w) (alter (append_cond c) (w_idx w) (filters (w_parent w))))
    (w_idx w).

(** [func (w *whereClause) And(parts ...string) *whereClause] *)
Definition And (w : whereRef) (parts : list string) : whereRef :=
  where_append w ("AND " +:+ Join parts " ").

(** [func (w *whereClause) Or(parts ...string) *whereClause] *)
Definition Or (w : whereRef) (parts : list string) : whereRef :=
  where_append w ("OR " +:+ Join parts " ").

(** [func (w *whereClause) Not(parts ...string) *whereClause] *)
Definition Not (w : whereRef) (parts : list string) : whereRef :=
  where_append w ("NOT " +:+ Join parts " ").

(** [func (w *whereClause) Query() *query] *)
Definition Query (w : whereRef) : query := w_parent w.

(** [func (w *whereClause) String() string] *)
Definition where_String (w : whereClause) : string := Join (conds w) " ".

(** The clause a handle points at. *)
Definition deref (w : whereRef) : option whereClause :=
  filters (w_parent w) !! w_idx w.

(** [func (q *query) Select(columns ...string) *selectClause] *)
Definition Select (q : query) (columns : list string) : query :=
  set_projected q (Some (mkSelect false columns)).


(** [func (q *query) OrderBy(columns ...string) *orderbyClause] *)
Definition OrderBy (q : query) (columns : list string) : query :=
  set_orderBy q (Some (mkOrderBy columns false)).

(** A [*joinClause] handle: the owning query and the join's index. *)
Record joinRef := mkJoinRef { j_parent : query; j_idx : nat }.

Definition add_join (q : query) (ty t : string) : joinRef :=
  mkJoinRef (set_joins q (joins q ++ [mkJoin ty t ""])) (length (joins q)).

(** [func (q *query) InnerJoin(table string) *joinClause] *)
Definition InnerJoin (q : query) (t : string) : joinRef := add_join q "INNER" t.
(** [func (q *query) RightJoin(table string) *joinClause] *)
Definition RightJoin (q : query) (t : string) : joinRef := add_join q "RIGHT" t.
(** [func (q *query) LeftJoin(table string) *joinClause] *)
Definition LeftJoin (q : query) (t : string) : joinRef := add_join q "LEFT" t.
(** [func (q *query) FullOuterJoin(table string) *joinClause] *)
Definition FullOuterJoin (q : query) (t : string) : joinRef := add_join q "FULL OUTER" t.

(** Modelled from the spec: [joinClause.On], the method that stores the join
    condition and hands the query back, is not among the sources; the
    statement state is "type + table + condition" (spec, section 3). *)
Definition On (j : joinRef) (parts : list string) : query :=
  set_joins (j_parent j)
    (alter (fun c => mkJoin (joinType c) (join_table c) (Join parts " "))
           (j_idx j) (joins (j_parent j))).

(** Modelled from the spec: [selectClause.String] is not among the sources;
    a projection is a column list with an optional DISTINCT (spec, section 3),
    and the default projection renders as [*] (spec, section 8). *)
Definition select_String (s : selectClause) : string :=
  if distinct s then "DISTINCT " +:+ Join (sel_columns s) ", "
  else Join (sel_columns s) ", ".

(** Modelled from the spec: [orderbyClause.String] is not among the sources;
    ORDER BY carries a column list and a direction (spec, section 3). *)
Definition orderby_String (o : orderbyClause) : string :=
  if desc o then Join (ob_columns o) ", " +:+ " DESC"
  else Join (ob_columns o) ", ".

(** Modelled from the spec: [groupByClause.String] is not among the sources;
    GROUP BY carries a column list (spec, section 3). *)
Definition groupby_String (g : groupByClause) : string :=
  Join (gb_columns g) ", ".

(** Modelled from the spec: [joinClause.String] is not among the sources;
    "each join clause renders as <TYPE> JOIN <table> ON <condition>"
    (spec, section 4.3). *)
Definition join_String (j : joinClause) : string :=
  joinType j +:+ " JOIN " +:+ join_table j +:+ " ON " +:+ join_conds j.

(** The sections [SQL] appends for each optional part of the statement. *)
Definition default_projection : selectClause := mkSelect false ["*"].

Definition where_sections (q : query) : list string :=
  match filters q with
  | [] => []
  | fs => "WHERE" :: map where_String fs
  end.

Definition orderby_sections (q : query) : list string :=
  match orderBy q with
  | Some o => ["ORDER BY"; orderby_String o]
  | None => []
  end.

Definition groupby_sections (q : query) : list string :=
  match groupBy q with
  | Some g => ["GROUP BY"; groupby_String g]
  | None => []
  end.

Definition join_sections (q : query) : list string := map join_String (joins q).

(** [func (q *query) SQL() (string, error)].  The receiver is returned as
    well, because a nil [q.projected] is overwritten with the default
    projection before anything else happens. *)
Definition SQL (q : query) : query * (string * option error) :=
  let sections := [] in
  let q := match projected q with
           | None => set_projected q (Some default_projection)
           | Some _ => q
           end in
  let p := match projected q with Some p => p | None => default_projection end in
  let sections := sections ++ ["SELECT"; select_String p] in
  if String.eqb (table q) "" then
    (q, ("", Some (Errorf "table name cannot be empty")))
  else
    let sections := sections ++ ["FROM " +:+ table q] in
    let sections := sections ++ where_sections q in
    let sections := sections ++ orderby_sections q in
    let sections := sections ++ groupby_sections q in
    let sections := sections ++ join_sections q in
    (q, (Join sections " ", None)).

Definition SQL_text (q : query) : string := fst (snd (SQL q)).
Definition SQL_err (q : query) : option error := snd (snd (SQL q)).

(** *** Chains of fluent calls

    A WHERE clause is written as [q.Where(p0).And(p1).Or(p2)...]: a first
    fragment and then any number of connector calls on the handle. *)
Inductive connector := AND | OR | NOT.

Definition keyword (c : connector) : string :=
  match c with AND => "AND" | OR => "OR" | NOT => "NOT" end.

Definition connect (w : whereRef) (call : connector * list string) : whereRef :=
  match fst call with
  | AND => And w (snd call)
  | OR => Or w (snd call)
  | NOT => Not w (snd call)
  end.

Definition chain (q : query) (parts0 : list string) (calls : list (connector * list string))
  : whereRef :=
  fold_left connect calls (Where q parts0).

(** What a connector call is expected to contribute to the clause. *)
Definition fragment (call : connector * list string) : string :=
  keyword (fst call) +:+ " " +:+ Join (snd call) " ".

(** Joins are declared as [q.InnerJoin(t).On(cond)], one after the other. *)
Inductive joinKind := INNER | RIGHT | LEFT | FULL_OUTER.

Definition joinKind_String (k : joinKind) : string :=
  match k with
  | INNER => "INNER" | RIGHT => "RIGHT" | LEFT => "LEFT" | FULL_OUTER => "FULL OUTER"
  end.

Record joinDecl := mkDecl { d_kind : joinKind; d_table : string; d_on : list string }.

Definition declare (q : query) (d : joinDecl) : query :=
  let j := match d_kind d with
           | INNER => InnerJoin q (d_table d)
           | RIGHT => RightJoin q (d_table d)
           | LEFT => LeftJoin q (d_table d)
           | FULL_OUTER => FullOuterJoin q (d_table d)
           end in
  On j (d_on d).

(** How a declared join is expected to read in the statement. *)
Definition joinDecl_String (d : joinDecl) : string :=
  joinKind_String (d_kind d) +:+ " JOIN " +:+ d_table d +:+ " ON " +:+ Join (d_on d) " ".

(** The join clause a declaration leaves in the query. *)
Definition declared (d : joinDecl) : joinClause :=
  mkJoin (joinKind_String (d_kind d)) (d_table d) (Join (d_on d) " ").

(** The error of a statement without a table. *)
Definition no_table : error := Errorf "table name cannot be empty".

(** The sections that precede the joins. *)
Definition head_sections (q : query) : list string :=
  ["SELECT"; select_String (default default_projection (projected q)); "FROM " +:+ table q]
    ++ where_sections q ++ orderby_sections q ++ groupby_sections q.

(** *** The execute and bind wrappers

    [*sql.DB] is the list of calls the handle has received so far.  What the
    database answers is outside the program: it is a parameter, and may
    depend on everything the handle has seen. *)

Inductive dbcall (ctx : Type) :=
| call_exec (c : ctx) (text : string) (args : list value)
| call_bind (c : ctx) (text : string) (args : list value).
Arguments call_exec {ctx}.
Arguments call_bind {ctx}.

Section Wrappers.
Variable ctx : Type.
(** [context.Background()] *)
Variable Background : ctx.
(** [sql.Result] *)
Variable Result : Type.
(** The bind destination [v interface{}]. *)
Variable dest : Type.

Definition DB := list (dbcall ctx).

(** What a wrapper leaves behind: the handle after the call and the
    values it returns (the first component is the receiver). *)
Definition handle_after {A : Type} (r : query * DB * A) : DB := snd (fst r).
Definition returned {A : Type} (r : query * DB * A) : A := snd r.

Variable exec_answer : DB -> ctx -> string -> list value -> option Result * option error.
Variable bind_answer : DB -> ctx -> dest -> string -> list value -> dest * option error.

(** Modelled from the spec: [exec], the package helper that hands a
    finished statement to the database collaborator's Exec (spec,
    section 6), is not among the sources. *)
Definition exec (c : ctx) (db : DB) (text : string) (args : list value)
  : DB * (option Result * option error) :=
  (db ++ [call_exec c text args], exec_answer db c text args).

(** Modelled from the spec: [_bind], the package helper that runs a
    finished statement as a query and binds the rows into [v] (spec,
    sections 4.4 and 6), is not among the sources. *)
Definition _bind (c : ctx) (db : DB) (v : dest) (text : string) (args : list value)
  : DB * (dest * option error) :=
  (db ++ [call_bind c text args], bind_answer db c v text args).

(** [func (q *query) Exec(db *sql.DB, args ...interface{}) (sql.Result, error)] *)
Definition Exec (q : query) (db : DB) (args : list value)
  : query * DB * (option Result * option error) :=
  let '(q, (query, err)) := SQL q in
  match err with
  | Some err => (q, db, (None, Some err))
  | None => let '(db, r) := exec Background db query args in (q, db, r)
  end.

(** [func (q *query) ExecContext(ctx context.Context, db *sql.DB, args ...interface{})];
    the context it is given is not the one it passes on. *)
Definition ExecContext (q : query) (c : ctx) (db : DB) (args : list value)
  : query * DB * (option Result * option error) :=
  let '(q, (s, err)) := SQL q in
  match err with
  | Some err => (q, db, (None, Some err))
  | None => let '(db, r) := exec Background db s args in (q, db, r)
  end.

(** [func (q *query) Bind(db *sql.DB, v interface{}, args ...interface{}) error] *)
Definition Bind (q : query) (db : DB) (v : dest) (args : list value)
  : query * DB * (dest * option error) :=
  let '(q, (s, err)) := SQL q in
  match err with
  | Some err => (q, db, (v, Some err))
  | None => let '(db, r) := _bind Background db v s args in (q, db, r)
  end.

(** [func (q *query) BindContext(ctx context.Context, db *sql.DB, v interface{},
    args ...interface{}) error] *)
Definition BindContext (q : query) (c : ctx) (db : DB) (v : dest) (args : list value)
  : query * DB * (dest * option error) :=
  let '(q, (s, err)) := SQL q in
  match err with
  | Some err => (q, db, (v, Some err))
  | None => let '(db, r) := _bind c db v s args in (q, db, r)
  end.
End Wrappers.

(** *** Several WHERE clauses

    [q.Where(p1).Query().Where(p2).Query()...]: one [Where] call for each
    list of parts, each call going back to the query. *)
Definition where_each (q : query) (partss : list (list string)) : query :=
  fold_left (fun q parts => Query (Where q parts)) partss q.

End builder.

(** ** Package [querybuilder], as [orm.go] uses it

    None of this package is among the sources.  The builders are modelled
    from the spec (section 4.3: fluent configuration calls that mutate the
    builder state, a terminal [Build] that renders the statement and returns
    the parallel argument slice) and from the statements the README shows
    ([INSERT INTO users (name) VALUES (?)], [UPDATE users SET name=? WHERE id=?],
    [DELETE FROM posts WHERE id=?]). *)

Module querybuilder.

(** Modelled from the spec: the [Dialect] record, "name, placeholder
    character, whether placeholders are numbered or repeated" (section 3). *)
Record Dialect := mkDialect {
  DriverName : string;
  PlaceholderChar : string;
  IncludeIndexInPlaceholder : bool
}.

(** Modelled from the spec: the dialect table (section 4.1). *)
Definition MySQL : Dialect := mkDialect "mysql" "?" false.
Definition SQLite3 : Dialect := mkDialect "sqlite3" "?" false.
Definition PostgreSQL : Dialect := mkDialect "postgres" "$" true.

(** Modelled from the spec: [WhereHelpers.Equal], the equality condition
    of a column and a placeholder, written as the README writes it. *)
Definition Equal (column value : string) : string := column +:+ "=" +:+ value.

Module Insert.
(** Modelled from the spec: the state of the Insert builder - table, column
    list, one placeholder group per row, arguments. *)
Record t := mk {
  table : string;
  into : list string;
  values : list (list string);
  args : list value
}.
(** [&querybuilder.Insert{}] *)
Definition zero : t := mk "" [] [] [].
(** Modelled from the spec: [Insert.Table] sets the table. *)
Definition Table (i : t) (tb : string) : t := mk tb (into i) (values i) (args i).
(** Modelled from the spec: [Insert.Into] adds columns. *)
Definition Into (i : t) (cols : list string) : t :=
  mk (table i) (into i ++ cols) (values i) (args i).
(** Modelled from the spec: [Insert.Values] adds the placeholder group of a row. *)
Definition Values (i : t) (phs : list string) : t :=
  mk (table i) (into i) (values i ++ [phs]) (args i).
(** Modelled from the spec: [Insert.WithArgs] adds the arguments it is given. *)
Definition WithArgs (i : t) (vs : list value) : t :=
  mk (table i) (into i) (values i) (args i ++ vs).
(** Modelled from the spec: a row of [Insert.Build], a parenthesised
    placeholder group. *)
Definition row (phs : list string) : string := "(" +:+ Join phs "," +:+ ")".
(** Modelled from the spec: [Insert.Build]; one placeholder group per row,
    "row-group boundaries preserved" (section 4.3). *)
Definition Build (i : t) : string * list value :=
  ("INSERT INTO " +:+ table i +:+ " (" +:+ Join (into i) "," +:+ ") VALUES "
     +:+ Join (map row (values i)) ",",
   args i).
End Insert.

Module Update.
(** Modelled from the spec: the state of the Update builder - table, WHERE
    condition, SET pairs of column and placeholder, arguments. *)
Record t := mk {
  table : string;
  where_ : string;
  set : list (string * string);
  args : list value
}.
(** [querybuilder.UpdateStmt()] *)
Definition UpdateStmt : t := mk "" "" [] [].
(** Modelled from the spec: [Update.Table] sets the table. *)
Definition Table (u : t) (tb : string) : t := mk tb (where_ u) (set u) (args u).
(** Modelled from the spec: [Update.Where] sets the condition. *)
Definition Where (u : t) (w : string) : t := mk (table u) w (set u) (args u).
(** Modelled from the spec: [Update.Set] adds a SET pair. *)
Definition Set_ (u : t) (k v : string) : t :=
  mk (table u) (where_ u) (set u ++ [(k, v)]) (args u).
(** Modelled from the spec: [Update.WithArgs] adds the arguments it is given. *)
Definition WithArgs (u : t) (vs : list value) : t :=
  mk (table u) (where_ u) (set u) (args u ++ vs).
(** Modelled from the spec: a SET pair of [Update.Build]. *)
Definition pair_String (kv : string * string) : string := fst kv +:+ "=" +:+ snd kv.
(** Modelled from the spec: [Update.Build]. *)
Definition Build (u : t) : string * list value :=
  ("UPDATE " +:+ table u +:+ " SET " +:+ Join (map pair_String (set u)) ","
     +:+ " WHERE " +:+ where_ u,
   args u).
End Update.

Module Delete.
(** Modelled from the spec: the state of the Delete builder. *)
Record t := mk { table : string; where_ : string; args : list value }.
(** [&querybuilder.Delete{}] *)
Definition zero : t := mk "" "" [].
(** Modelled from the spec: [Delete.Table] sets the table. *)
Definition Table (d : t) (tb : string) : t := mk tb (where_ d) (args d).
(** Modelled from the spec: [Delete.Where] sets the condition. *)
Definition Where (d : t) (w : string) : t := mk (table d) w (args d).
(** Modelled from the spec: [Delete.WithArgs] adds the arguments it is given. *)
Definition WithArgs (d : t) (vs : list value) : t :=
  mk (table d) (where_ d) (args d ++ vs).
(** Modelled from the spec: [Delete.Build]. *)
Definition Build (d : t) : string * list value :=
  ("DELETE FROM " +:+ table d +:+ " WHERE " +:+ where_ d, args d).
End Delete.

Module Select.
(** Modelled from the spec: the state of the Select builder, as far as
    [orm.go] fills it - table, projection, WHERE condition, arguments. *)
Record t := mk {
  table : string;
  selected : option (list string);
  where_ : option string;
  args : list value
}.
(** [&querybuilder.Select{}] *)
Definition zero : t := mk "" None None [].
(** Modelled from the spec: [Select.Select] sets the projection. *)
Definition Select (s : t) (cols : list string) : t :=
  mk (table s) (Some cols) (where_ s) (args s).
(** Modelled from the spec: [Select.From] sets the table. *)
Definition From (s : t) (tb : string) : t := mk tb (selected s) (where_ s) (args s).
(** Modelled from the spec: [Select.Where] sets the condition. *)
Definition Where (s : t) (w : string) : t := mk (table s) (selected s) (Some w) (args s).
(** Modelled from the spec: [Select.WithArgs] adds the arguments it is given. *)
Definition WithArgs (s : t) (vs : list value) : t :=
  mk (table s) (selected s) (where_ s) (args s ++ vs).
(** Modelled from the spec: [Select.Build]; "Build fails (returns an
    error/empty result) when no table was set", an absent projection is
    [*], an absent WHERE is left out (sections 4.3 and 8). *)
Definition Build (s : t) : string * list value :=
  if String.eqb (table s) "" then ("", [])
  else
    (Join (["SELECT"; Join (default ["*"] (selected s)) ", "; "FROM " +:+ table s]
           ++ match where_ s with Some w => ["WHERE"; w] | None => [] end) " ",
     args s).
End Select.

End querybuilder.

(** ** Package [orm] (orm.go) *)

Module orm.
Import querybuilder.

Module PlaceHolderGenerators.
(** Modelled from the spec: [PlaceHolderGenerators.MySQL]; "for a set of N
    columns, the builder emits either N repeated ? markers or N sequentially
    numbered markers ($1..$N)" (section 4.3). *)
Definition MySQL (n : nat) : list string := repeat "?" n.
(** Modelled from the spec: [PlaceHolderGenerators.Postgres], the numbered
    markers of the same sentence. *)
Definition Postgres (n : nat) : list string :=
  map (fun i => "$" +:+ Sprint (Z.of_nat i)) (seq 1 n).
End PlaceHolderGenerators.

Module HasManyConfig.
Record t := mk { PropertyTable : string; PropertyForeignKey : string }.
End HasManyConfig.

Module HasOneConfig.
Record t := mk { PropertyTable : string; PropertyForeignKey : string }.
End HasOneConfig.

Module BelongsToConfig.
Record t := mk {
  OwnerTable : string;
  LocalForeignKey : string;
  ForeignColumnName : string
}.
End BelongsToConfig.

Module BelongsToManyConfig.
Record t := mk {
  IntermediateTable : string;
  IntermediatePropertyID : string;
  IntermediateOwnerID : string;
  ForeignTable : string;
  ForeignLookupColumn : string
}.
End BelongsToManyConfig.

(** What a schema's [relations map[string]interface{}] holds: a config of
    one of the four kinds; the type assertion [.(HasManyConfig)] is the
    match on the constructor, and a missing key fails it as well. *)
Inductive RelationConfig :=
| RelHasMany (c : HasManyConfig.t)
| RelHasOne (c : HasOneConfig.t)
| RelBelongsTo (c : BelongsToConfig.t)
| RelBelongsToMany (c : BelongsToManyConfig.t).

(** Modelled from the spec: the [field] and [schema] structs are declared
    outside the sources; a schema is "table name, ordered list of Field,
    primary-key field, mapping from related table name to RelationConfig,
    owning dialect" (section 3). *)
Record field := mkField { Name : string; IsPK : bool }.

Record schema := mkSchema {
  Table : string;
  fields : list field;
  relations : gmap string RelationConfig;
  dialect : Dialect
}.

(** An entity value: the schema of its type and one value per field, in
    declaration order.  A type parameter [OUT Entity] is passed as the
    zero value [*new(OUT)] of that type. *)
Record Entity := mkEntity { ent_schema : schema; ent_values : list value }.

(** The entity has a value for each field of its type. *)
Definition well_formed (e : Entity) : Prop :=
  length (ent_values e) = length (fields (ent_schema e)).

(** Modelled from the spec: [getSchemaFor] and [schemaOf], the cached and
    the reflecting lookup of an entity's schema (section 4.2). *)
Definition getSchemaFor (e : Entity) : schema := ent_schema e.
Definition schemaOf (e : Entity) : schema := ent_schema e.

(** Modelled from the spec: the "simple accessors" of a schema
    (section 4.2). *)
Definition getTable (s : schema) : string := Table s.
Definition getDialect (s : schema) : Dialect := dialect s.
Definition pkName (s : schema) : string :=
  match List.find IsPK (fields s) with
  | Some f => Name f
  | None => ""
  end.

Definition keep (withPK : bool) (f : field) : bool := withPK || negb (IsPK f).

(** Modelled from the spec: [Columns], "column names in stable declaration
    order, optionally excluding the primary-key column" (section 4.2). *)
Definition Columns (s : schema) (withPK : bool) : list string :=
  map Name (filter (fun f => keep withPK f = true) (fields s)).

(** Modelled from the spec: [genericValuesOf], the values of the entity's
    fields in the order of [Columns]. *)
Definition genericValuesOf (o : Entity) (withPK : bool) : list value :=
  map snd (filter (fun fv => keep withPK (fst fv) = true)
                  (zip (fields (getSchemaFor o)) (ent_values o))).

(** Modelled from the spec: [genericGetPKValue], the value of the
    primary-key field. *)
Definition genericGetPKValue (o : Entity) : value :=
  match List.find (fun fv => IsPK (fst fv)) (zip (fields (getSchemaFor o)) (ent_values o)) with
  | Some fv => snd fv
  | None => VNil
  end.

(** Modelled from the spec: [genericSetPkValue], which stores the key the
    database generated into the primary-key field. *)
Definition genericSetPkValue (o : Entity) (id : Z) : Entity :=
  mkEntity (ent_schema o)
    (map (fun fv => if IsPK (fst fv) then VInt id else snd fv)
         (zip (fields (getSchemaFor o)) (ent_values o))).

(** *** Running against the database

    A computation either returns or panics (an index out of range). *)
Inductive run (A : Type) :=
| Returned (a : A)
| Panicked (reason : string).
Arguments Returned {A}.
Arguments Panicked {A}.

Definition run_bind {A B} (m : run A) (f : A -> run B) : run B :=
  match m with
  | Returned a => f a
  | Panicked r => Panicked r
  end.

(** [l[i]] *)
Definition index {A} (l : list A) (i : nat) : run A :=
  match l !! i with
  | Some a => Returned a
  | None => Panicked "index out of range"
  end.

(** The calls a [*sql.DB] has received. *)
Inductive dbcall :=
| db_Exec (text : string) (args : list value)
| db_Query (text : string) (args : list value)
| db_QueryContext (text : string) (args : list value).

Definition DB := list dbcall.

Definition M (A : Type) : Type := DB -> DB * run A.

Definition ret {A} (a : A) : M A := fun db => (db, Returned a).
Definition bind {A B} (m : M A) (f : A -> M B) : M B :=
  fun db =>
    match m db with
    | (db', Returned a) => f a db'
    | (db', Panicked r) => (db', Panicked r)
    end.
Definition lift {A} (r : run A) : M A := fun db => (db, r).

Declare Scope orm_scope.
Delimit Scope orm_scope with orm.
Notation "x <- m ;; k" := (bind m (fun x => k))
  (at level 100, m at next level, right associativity) : orm_scope.

(** The calls a computation makes, and what it returns, from a given
    history of the handle. *)
Definition calls {A} (m : M A) (db : DB) : DB := fst (m db).
Definition result {A} (m : M A) (db : DB) : run A := snd (m db).

Open Scope orm_scope.

(** [sql.Result], as far as [Insert] looks at it. *)
Record sqlResult := mkResult { LastInsertId : Z * option error }.

(** [type keyValue struct { Key string; Value interface{} }] *)
Record keyValue (V : Type) := mkKV { Key : string; Value : V }.
Arguments mkKV {V}.
Arguments Key {V}.
Arguments Value {V}.

Section Orm.
(** [pluralize.NewClient().Singular], from a library outside the repository. *)
Variable Singular : string -> string.
(** [*sql.Rows] *)
Variable Rows : Type.
(** What the database answers to a call, given what it has seen. *)
Variable exec_answer : DB -> string -> list value -> sqlResult * option error.
Variable query_answer : DB -> string -> list value -> Rows * option error.
(** The row binder [schema.bind] (spec, section 4.4), for a destination
    that is one entity and for one that is a sequence of entities. *)
Variable bind_one : schema -> Rows -> Entity -> Entity * option error.
Variable bind_many : schema -> Rows -> list Entity -> list Entity * option error.

(** The methods [Exec], [Query] and [QueryContext] of the handle. *)
Definition dbExec (text : string) (args : list value) : M (sqlResult * option error) :=
  fun db => (db ++ [db_Exec text args], Returned (exec_answer db text args)).
Definition dbQuery (text : string) (args : list value) : M (Rows * option error) :=
  fun db => (db ++ [db_Query text args], Returned (query_answer db text args)).
Definition dbQueryContext (text : string) (args : list value) : M (Rows * option error) :=
  fun db => (db ++ [db_QueryContext text args], Returned (query_answer db text args)).

(** The placeholders [Insert] and [InsertAll] choose for one row. *)
Definition row_placeholders (d : Dialect) (n : nat) : list string :=
  if String.eqb (PlaceholderChar d) "$" then PlaceHolderGenerators.Postgres n
  else PlaceHolderGenerators.MySQL n.

(** [Insert], up to [Build]: the statement and its arguments. *)
Definition Insert_stmt (obj : Entity) : string * list value :=
  let cols := Columns (getSchemaFor obj) false in
  let values := genericValuesOf obj false in
  let phs := row_placeholders (getDialect (getSchemaFor obj)) (length cols) in
  let qb := Insert.zero in
  Insert.Build
    (Insert.WithArgs
       (Insert.Values
          (Insert.Into (Insert.Table qb (getTable (getSchemaFor obj))) cols)
          phs)
       values).

(** [func Insert(obj Entity) error]; the entity is returned too, since
    its primary key is written on success. *)
Definition Insert (obj : Entity) : M (Entity * option error) :=
  let '(q, args) := Insert_stmt obj in
  r <- dbExec q args ;;
  let '(res, err) := r in
  match err with
  | Some err => ret (obj, Some err)
  | None =>
      let '(id, err) := LastInsertId res in
      match err with
      | Some err => ret (obj, Some err)
      | None => ret (genericSetPkValue obj id, None)
      end
  end.

(** The first loop of [InsertAll]: all entities go to one table. *)
Fixpoint same_table (lastTable : string) (objs : list Entity) : option error :=
  match objs with
  | [] => None
  | obj :: objs =>
      let s := getSchemaFor obj in
      if String.eqb lastTable "" then same_table (Table s) objs
      else if negb (String.eqb lastTable (Table s)) then
        Some ("cannot batch insert for two different tables: "
                +:+ Table s +:+ " and " +:+ lastTable)
      else same_table lastTable objs
  end.

(** [InsertAll] for two entities or more, up to [Build].  [phs] gets one
    entry per entity, so [phs[idx]] is the entry made for [obj]; the
    values of an entity are handed to [WithArgs] unspread, as one
    argument. *)
Definition InsertAll_stmt (first : Entity) (objs : list Entity) : string * list value :=
  let cols := Columns (getSchemaFor first) false in
  let phs := map (fun obj => row_placeholders (getDialect (getSchemaFor obj)) (length cols)) objs in
  let qb := Insert.Into (Insert.Table Insert.zero (getTable (getSchemaFor first))) cols in
  let qb := fold_left
              (fun qb po => Insert.WithArgs (Insert.Values qb (fst po))
                                            [VSlice (genericValuesOf (snd po) false)])
              (zip phs objs) qb in
  Insert.Build qb.

(** [func InsertAll(objs ...Entity) error]; [args] goes to [Exec]
    unspread as well. *)
Definition InsertAll (objs : list Entity) : M (list Entity * option error) :=
  match objs with
  | [obj] =>
      r <- Insert obj ;;
      ret ([fst r], snd r)
  | [] => ret ([], None)
  | first :: _ =>
      match same_table "" objs with
      | Some err => ret (objs, Some err)
      | None =>
          let '(q, args) := InsertAll_stmt first objs in
          r <- dbExec q [VSlice args] ;;
          ret (objs, snd r)
      end
  end.

(** [func toMap(obj Entity, withPK bool) []keyValue] *)
Fixpoint toMap_loop (i : nat) (cols : list string) (vs : list value)
  : run (list (keyValue value)) :=
  match cols with
  | [] => Returned []
  | col :: cols =>
      run_bind (index vs i) (fun v =>
      run_bind (toMap_loop (S i) cols vs) (fun kvs =>
      Returned (mkKV col v :: kvs)))
  end.

Definition toMap (obj : Entity) (withPK : bool) : run (list (keyValue value)) :=
  let vs := genericValuesOf obj withPK in
  let cols := Columns (getSchemaFor obj) withPK in
  toMap_loop 0 cols vs.

(** The placeholder of the primary-key condition: number 1 when the
    dialect numbers its placeholders. *)
Definition first_placeholder (d : Dialect) : string :=
  let ph := PlaceholderChar d in
  if IncludeIndexInPlaceholder d then ph +:+ "1" else ph.

(** One round of the loop of [Update]. *)
Definition Update_step (d : Dialect) (st : Update.t * Z) (kv : keyValue value)
  : Update.t * Z :=
  let '(query, counter) := st in
  let thisPh := PlaceholderChar d in
  let thisPh := if IncludeIndexInPlaceholder d then thisPh +:+ Sprint counter else thisPh in
  let query := Update.Set_ query (Key kv) thisPh in
  let query := Update.WithArgs query [Value kv] in
  (query, (counter + 1)%Z).

(** [Update], up to the call of [Build]: the builder it has filled. *)
Definition Update_query (obj : Entity) : run Update.t :=
  let ph := first_placeholder (getDialect (getSchemaFor obj)) in
  let counter := 2%Z in
  run_bind (toMap obj false) (fun kvs =>
  let whereClause := Equal (pkName (getSchemaFor obj)) ph in
  let query := Update.Where
                 (Update.Table Update.UpdateStmt (getTable (getSchemaFor obj)))
                 whereClause in
  let '(query, _) := fold_left (Update_step (getDialect (getSchemaFor obj)))
                               kvs (query, counter) in
  let query := Update.WithArgs query [genericGetPKValue obj] in
  Returned query).

Definition Update_stmt (obj : Entity) : run (string * list value) :=
  run_bind (Update_query obj) (fun query => Returned (Update.Build query)).

(** [func Update(obj Entity) error] *)
Definition Update (obj : Entity) : M (option error) :=
  qa <- lift (Update_stmt obj) ;;
  r <- dbExec (fst qa) (snd qa) ;;
  ret (snd r).

(** [Delete], up to [Build]. *)
Definition Delete_stmt (obj : Entity) : string * list value :=
  let ph := first_placeholder (getDialect (getSchemaFor obj)) in
  let query := Equal (pkName (getSchemaFor obj)) ph in
  let qb := Delete.zero in
  Delete.Build
    (Delete.WithArgs
       (Delete.Where (Delete.Table qb (getTable (getSchemaFor obj))) query)
       [genericGetPKValue obj]).

(** [func Delete(obj Entity) error] *)
Definition Delete (obj : Entity) : M (option error) :=
  let '(q, args) := Delete_stmt obj in
  r <- dbExec q args ;;
  ret (snd r).

(** [func bindContext[T Entity](ctx, output interface{}, q string, args []interface{}) error];
    [binder] is the row binder for the kind of destination [output] is. *)
Definition bindContext {D : Type} (binder : schema -> Rows -> D -> D * option error)
           (T : Entity) (output : D) (q : string) (args : list value)
  : M (D * option error) :=
  let outputMD := getSchemaFor T in
  r <- dbQueryContext q args ;;
  let '(rows, err) := r in
  match err with
  | Some err => ret (output, Some err)
  | None => ret (binder outputMD rows output)
  end.

(** [Find], up to [Build]. *)
Definition Find_stmt (T : Entity) (id : value) : string * list value :=
  let md := getSchemaFor T in
  let ph := first_placeholder (dialect md) in
  let qb := Select.zero in
  Select.Build
    (Select.WithArgs
       (Select.Where
          (Select.From (Select.Select qb (Columns md true)) (Table md))
          (Equal (pkName md) ph))
       [id]).

(** [func Find[T Entity](id interface{}) (T, error)] *)
Definition Find (T : Entity) (id : value) : M (Entity * option error) :=
  let out := T in
  let '(q, args) := Find_stmt T id in
  bindContext bind_one T out q args.

(** *** The relation resolver *)

(** The defaults [HasMany] fills into its config. *)
Definition HasMany_defaults (c : HasManyConfig.t) (owner : Entity) (property : schema)
  : HasManyConfig.t :=
  let c := if String.eqb (HasManyConfig.PropertyTable c) ""
           then HasManyConfig.mk (Table property) (HasManyConfig.PropertyForeignKey c)
           else c in
  let c := if String.eqb (HasManyConfig.PropertyForeignKey c) ""
           then HasManyConfig.mk (HasManyConfig.PropertyTable c)
                  (Singular (getTable (getSchemaFor owner)) +:+ "_id")
           else c in
  c.

(** [func HasMany[OUT Entity](owner Entity) ([]OUT, error)] *)
Definition HasMany (OUT : Entity) (owner : Entity) : M (list Entity * option error) :=
  let outSchema := getSchemaFor OUT in
  match relations (getSchemaFor owner) !! Table outSchema with
  | Some (RelHasMany c) =>
      let property := schemaOf OUT in
      let out : list Entity := [] in
      let c := HasMany_defaults c owner property in
      let ph := first_placeholder (getDialect (getSchemaFor owner)) in
      let qb := Select.zero in
      let '(q, args) :=
        Select.Build
          (Select.WithArgs
             (Select.Where
                (Select.From qb (HasManyConfig.PropertyTable c))
                (Equal (HasManyConfig.PropertyForeignKey c) ph))
             [genericGetPKValue owner]) in
      if String.eqb q "" then ret ([], Some (Errorf "cannot build the query"))
      else
        r <- bindContext bind_many OUT out q args ;;
        let '(out, err) := r in
        match err with
        | Some err => ret ([], Some err)
        | None => ret (out, None)
        end
  | _ => ret ([], Some (Errorf "wrong config passed for HasMany"))
  end.

(** The defaults [HasOne] fills into its config. *)
Definition HasOne_defaults (c : HasOneConfig.t) (owner : Entity) (property : schema)
  : HasOneConfig.t :=
  let c := if String.eqb (HasOneConfig.PropertyTable c) ""
           then HasOneConfig.mk (Table property) (HasOneConfig.PropertyForeignKey c)
           else c in
  let c := if String.eqb (HasOneConfig.PropertyForeignKey c) ""
           then HasOneConfig.mk (HasOneConfig.PropertyTable c)
                  (Singular (Table (getSchemaFor owner)) +:+ "_id")
           else c in
  c.

(** [func HasOne[PROPERTY Entity](owner Entity) (PROPERTY, error)] *)
Definition HasOne (PROPERTY : Entity) (owner : Entity) : M (Entity * option error) :=
  let out := PROPERTY in
  let property := getSchemaFor PROPERTY in
  match relations (getSchemaFor owner) !! Table property with
  | Some (RelHasOne c) =>
      let c := HasOne_defaults c owner property in
      let ph := first_placeholder (dialect property) in
      let qb := Select.zero in
      let '(q, args) :=
        Select.Build
          (Select.WithArgs
             (Select.Where
                (Select.From qb (HasOneConfig.PropertyTable c))
                (Equal (HasOneConfig.PropertyForeignKey c) ph))
             [genericGetPKValue owner]) in
      if String.eqb q "" then ret (out, Some (Errorf "cannot build the query"))
      else bindContext bind_one PROPERTY out q args
  | _ => ret (PROPERTY, Some (Errorf "wrong config passed for HasOne"))
  end.

(** The defaults [BelongsTo] fills into its config. *)
Definition BelongsTo_defaults (c : BelongsToConfig.t) (owner : schema) : BelongsToConfig.t :=
  let c := if String.eqb (BelongsToConfig.OwnerTable c) ""
           then BelongsToConfig.mk (Table owner) (BelongsToConfig.LocalForeignKey c)
                  (BelongsToConfig.ForeignColumnName c)
           else c in
  let c := if String.eqb (BelongsToConfig.LocalForeignKey c) ""
           then BelongsToConfig.mk (BelongsToConfig.OwnerTable c)
                  (Singular (Table owner) +:+ "_id")
                  (BelongsToConfig.ForeignColumnName c)
           else c in
  let c := if String.eqb (BelongsToConfig.ForeignColumnName c) ""
           then BelongsToConfig.mk (BelongsToConfig.OwnerTable c)
                  (BelongsToConfig.LocalForeignKey c) "id"
           else c in
  c.

(** The loop of [BelongsTo] that looks for the foreign key among the
    owner's fields: the last match wins, and 0 stands when none matches. *)
Fixpoint ownerID_index (idx : nat) (fs : list field) (key : string) (ownerIDidx : nat) : nat :=
  match fs with
  | [] => ownerIDidx
  | f :: fs =>
      ownerID_index (S idx) fs key (if String.eqb (Name f) key then idx else ownerIDidx)
  end.

(** [func BelongsTo[OWNER Entity](property Entity) (OWNER, error)] *)
Definition BelongsTo (OWNER : Entity) (property : Entity) : M (Entity * option error) :=
  let out := OWNER in
  let owner := getSchemaFor OWNER in
  match relations (getSchemaFor property) !! Table owner with
  | Some (RelBelongsTo c) =>
      let c := BelongsTo_defaults c owner in
      let ph := first_placeholder (getDialect owner) in
      let ownerIDidx := ownerID_index 0 (fields owner) (BelongsToConfig.LocalForeignKey c) 0 in
      ownerID <- lift (index (genericValuesOf property true) ownerIDidx) ;;
      let qb := Select.zero in
      let '(q, args) :=
        Select.Build
          (Select.WithArgs
             (Select.Where
                (Select.From qb (BelongsToConfig.OwnerTable c))
                (Equal (BelongsToConfig.ForeignColumnName c) ph))
             [ownerID]) in
      bindContext bind_one OWNER out q args
  | _ => ret (OWNER, Some (Errorf "wrong config passed for BelongsTo"))
  end.

(** The defaults [BelongsToMany] fills in before it looks at the
    intermediate table, and those it fills in after. *)
Definition BelongsToMany_defaults_foreign (c : BelongsToManyConfig.t) (OWNER : Entity)
  : BelongsToManyConfig.t :=
  let c := if String.eqb (BelongsToManyConfig.ForeignLookupColumn c) ""
           then BelongsToManyConfig.mk
                  (BelongsToManyConfig.IntermediateTable c)
                  (BelongsToManyConfig.IntermediatePropertyID c)
                  (BelongsToManyConfig.IntermediateOwnerID c)
                  (BelongsToManyConfig.ForeignTable c)
                  (pkName (getSchemaFor OWNER))
           else c in
  let c := if String.eqb (BelongsToManyConfig.ForeignTable c) ""
           then BelongsToManyConfig.mk
                  (BelongsToManyConfig.IntermediateTable c)
                  (BelongsToManyConfig.IntermediatePropertyID c)
                  (BelongsToManyConfig.IntermediateOwnerID c)
                  (Table (getSchemaFor OWNER))
                  (BelongsToManyConfig.ForeignLookupColumn c)
           else c in
  c.

Definition BelongsToMany_defaults_intermediate (c : BelongsToManyConfig.t)
           (out : Entity) (property : Entity) : BelongsToManyConfig.t :=
  let c := if String.eqb (BelongsToManyConfig.IntermediatePropertyID c) ""
           then BelongsToManyConfig.mk
                  (BelongsToManyConfig.IntermediateTable c)
                  (Singular (Table (getSchemaFor property)) +:+ "_id")
                  (BelongsToManyConfig.IntermediateOwnerID c)
                  (BelongsToManyConfig.ForeignTable c)
                  (BelongsToManyConfig.ForeignLookupColumn c)
           else c in
  let c := if String.eqb (BelongsToManyConfig.IntermediateOwnerID c) ""
           then BelongsToManyConfig.mk
                  (BelongsToManyConfig.IntermediateTable c)
                  (BelongsToManyConfig.IntermediatePropertyID c)
                  (Singular (Table (getSchemaFor out)) +:+ "_id")
                  (BelongsToManyConfig.ForeignTable c)
                  (BelongsToManyConfig.ForeignLookupColumn c)
           else c in
  c.

(** The statement text of [BelongsToMany]: the [fmt.Sprintf] with its
    six [%s] filled in. *)
Definition BelongsToMany_text (c : BelongsToManyConfig.t) (out : Entity) : string :=
  "select " +:+ Join (Columns (getSchemaFor out) true) ","
    +:+ " from " +:+ Table (getSchemaFor out)
    +:+ " where " +:+ BelongsToManyConfig.ForeignLookupColumn c
    +:+ " IN (select " +:+ BelongsToManyConfig.IntermediateOwnerID c
    +:+ " from " +:+ BelongsToManyConfig.IntermediateTable c
    +:+ " where " +:+ BelongsToManyConfig.IntermediatePropertyID c
    +:+ " = ?)".

(** [func BelongsToMany[OWNER Entity](property Entity) ([]OWNER, error)] *)
Definition BelongsToMany (OWNER : Entity) (property : Entity)
  : M (list Entity * option error) :=
  let out := OWNER in
  match relations (getSchemaFor property) !! Table (getSchemaFor out) with
  | Some (RelBelongsToMany c) =>
      let c := BelongsToMany_defaults_foreign c OWNER in
      if String.eqb (BelongsToManyConfig.IntermediateTable c) "" then
        ret ([], Some (Errorf "cannot infer intermediate table yet"))
      else
        let c := BelongsToMany_defaults_intermediate c out property in
        let q := BelongsToMany_text c out in
        let args := [genericGetPKValue property] in
        r <- dbQuery q args ;;
        let '(rows, err) := r in
        match err with
        | Some err => ret ([], Some err)
        | None =>
            let output : list Entity := [] in
            let '(output, err) := bind_many (getSchemaFor out) rows output in
            match err with
            | Some err => ret ([], Some err)
            | None => ret (output, None)
            end
        end
  | _ => ret ([], Some (Errorf "wrong config passed for HasMany"))
  end.

(** [func Add(to Entity, items ...Entity) error]; the entities are
    returned along with the error, as the call leaves them. *)
Definition Add (to : Entity) (items : list Entity)
  : M (Entity * list Entity * option error) :=
  ret (to, items, None).
End Orm.

(** The placeholder [Update] writes for the value counted [i]: numbered
    when the dialect numbers its placeholders. *)
Definition nth_placeholder (d : Dialect) (i : nat) : string :=
  if IncludeIndexInPlaceholder d then PlaceholderChar d +:+ Sprint (Z.of_nat i)
  else PlaceholderChar d.

(** Columns paired with placeholders counted from [start]. *)
Definition numbered (d : Dialect) (start : nat) (cols : list string) : list (string * string) :=
  zip_with (fun col i => (col, nth_placeholder d i)) cols (seq start (length cols)).

(** *** The four relation functions, taken together *)

Inductive relation := rHasMany | rHasOne | rBelongsTo | rBelongsToMany.

(** The kind of a stored config: the dynamic type the assertion tests. *)
Definition variant (c : RelationConfig) : relation :=
  match c with
  | RelHasMany _ => rHasMany
  | RelHasOne _ => rHasOne
  | RelBelongsTo _ => rBelongsTo
  | RelBelongsToMany _ => rBelongsToMany
  end.

(** The error of a relation function that finds the wrong kind of config. *)
Definition misconfigured (k : relation) : error :=
  match k with
  | rHasMany => Errorf "wrong config passed for HasMany"
  | rHasOne => Errorf "wrong config passed for HasOne"
  | rBelongsTo => Errorf "wrong config passed for BelongsTo"
  | rBelongsToMany => Errorf "wrong config passed for HasMany"
  end.

Section Invoke.
Variable Singular : string -> string.
Variable Rows : Type.
Variable query_answer : DB -> string -> list value -> Rows * option error.
Variable bind_one : schema -> Rows -> Entity -> Entity * option error.
Variable bind_many : schema -> Rows -> list Entity -> list Entity * option error.

(** The relation function of kind [k] called for target type [T] on
    entity [e], keeping the error of its result. *)
Definition invoke (k : relation) (T e : Entity) : M (option error) :=
  match k with
  | rHasMany => r <- HasMany Singular Rows query_answer bind_many T e ;; ret (snd r)
  | rHasOne => r <- HasOne Singular Rows query_answer bind_one T e ;; ret (snd r)
  | rBelongsTo => r <- BelongsTo Singular Rows query_answer bind_one T e ;; ret (snd r)
  | rBelongsToMany => r <- BelongsToMany Singular Rows query_answer bind_many T e ;; ret (snd r)
  end.
End Invoke.

(** The same entity under another dialect. *)
Definition with_dialect (d : Dialect) (e : Entity) : Entity :=
  mkEntity (mkSchema (Table (ent_schema e)) (fields (ent_schema e))
                     (relations (ent_schema e)) d)
           (ent_values e).

(** *** Counting placeholder markers

    A marker starts with the dialect's placeholder character ([?] or [$]);
    the markers of a statement are the occurrences of that character. *)
Fixpoint count_char (c : ascii) (s : string) : nat :=
  match s with
  | EmptyString => 0
  | String a s => (if Ascii.eqb a c then 1 else 0) + count_char c s
  end.

Definition markers (d : Dialect) (text : string) : nat :=
  match PlaceholderChar d with
  | String c _ => count_char c text
  | EmptyString => 0
  end.

(** The two placeholder characters of the dialect table. *)
Definition marker_char (c : ascii) : Prop := c = "?"%char \/ c = "$"%char.

(** The dialect writes its placeholders with the one character [c], and
    [c] is one of the two the dialect table knows. *)
Definition standard (d : Dialect) (c : ascii) : Prop :=
  PlaceholderChar d = String c "" /\ marker_char c.

(** No name of the schema contains the character [c]. *)
Definition clean (c : ascii) (s : schema) : Prop :=
  count_char c (Table s) = 0 /\ Forall (fun f => count_char c (Name f) = 0) (fields s).

(** *** The remaining entry points of [orm.go] *)

(** [func getDialect(driver string)], the package function; it returns a
    pointer to a dialect and an error (the accessor of a schema is
    [getDialect] above). *)
Definition getDialect_of_driver (driver : string) : option Dialect * option error :=
  if String.eqb driver "mysql" then (Some MySQL, None)
  else if String.eqb driver "sqlite" || String.eqb driver "sqlite3" then (Some SQLite3, None)
  else if String.eqb driver "postgres" then (Some PostgreSQL, None)
  else (None, Some (Errorf "err no dialect matched with driver")).

(** [reflect.ValueOf(v).IsZero()].  The [reflect.Value] of a nil interface
    is invalid, and [IsZero] panics on it; a number is zero when it is 0, a
    string when it is empty, a slice when it is nil - and a slice that
    holds nothing stands for the nil slice, slices being made by appending
    only. *)
Definition IsZero (v : value) : run bool :=
  match v with
  | VNil => Panicked "reflect: call of reflect.Value.IsZero on zero Value"
  | VInt z => Returned (Z.eqb z 0)
  | VStr s => Returned (String.eqb s "")
  | VSlice vs => Returned (match vs with [] => true | _ => false end)
  end.

Section Entry.
Variable Rows : Type.
Variable exec_answer : DB -> string -> list value -> sqlResult * option error.
Variable query_answer : DB -> string -> list value -> Rows * option error.
(** [sql.Result.RowsAffected] *)
Variable RowsAffected : sqlResult -> Z * option error.
(** The row binder [schema.bind] (spec, section 4.4) when it is handed the
    slice itself instead of a pointer to it: it cannot reach the caller's
    variable, so all that comes back is its error, or a panic. *)
Variable bind_by_value : schema -> Rows -> list Entity -> run (option error).

(** [func Save(obj Entity) error]; the entity is returned as [Insert]
    returns it. *)
Definition Save (obj : Entity) : M (Entity * option error) :=
  z <- lift (IsZero (genericGetPKValue obj)) ;;
  if (z : bool) then Insert exec_answer obj
  else
    err <- Update exec_answer obj ;;
    ret (obj, err).

(** What [Exec] and [ExecRaw] do with the result of the database. *)
Definition exec_outcome (r : sqlResult * option error) : Z * Z * option error :=
  let '(res, err) := r in
  match err with
  | Some err => (0%Z, 0%Z, Some err)
  | None =>
      let '(id, err) := LastInsertId res in
      match err with
      | Some err => (0%Z, 0%Z, Some err)
      | None =>
          let '(affected, err) := RowsAffected res in
          match err with
          | Some err => (0%Z, 0%Z, Some err)
          | None => (id, affected, None)
          end
      end
  end.

(** [func Exec[E Entity](stmt querybuilder.SQL) (int64, int64, error)].
    The statement is what its [Build] returns, a text and an argument
    slice; the call [Exec(stmt.Build())] binds the text to the first
    parameter and the slice, as one value, to the variadic one. *)
Definition Exec (E : Entity) (stmt : string * list value) : M (Z * Z * option error) :=
  r <- dbExec exec_answer (fst stmt) [VSlice (snd stmt)] ;;
  ret (exec_outcome r).


(** What [Query] and [QueryRaw] do with the rows: [output] is declared,
    handed to the binder by value, and returned. *)
Definition query_outcome (OUTPUT : Entity) (r : Rows * option error)
  : M (list Entity * option error) :=
  let '(rows, err) := r in
  match err with
  | Some err => ret ([], Some err)
  | None =>
      let output : list Entity := [] in
      err <- lift (bind_by_value (getSchemaFor OUTPUT) rows output) ;;
      match err with
      | Some err => ret ([], Some err)
      | None => ret (output, None)
      end
  end.

(** [func Query[OUTPUT Entity](stmt *querybuilder.Select) ([]OUTPUT, error)];
    [Query(stmt.Build())] passes the argument slice as one value. *)
Definition Query (OUTPUT : Entity) (stmt : Select.t) : M (list Entity * option error) :=
  let '(q, args) := Select.Build stmt in
  r <- dbQuery Rows query_answer q [VSlice args] ;;
  query_outcome OUTPUT r.

(** [func QueryRaw[OUTPUT Entity](q string, args ...interface{}) ([]OUTPUT, error)] *)
Definition QueryRaw (OUTPUT : Entity) (q : string) (args : list value)
  : M (list Entity * option error) :=
  r <- dbQuery Rows query_answer q args ;;
  query_outcome OUTPUT r.
End Entry.

(** The calls that only read: [Query] and [QueryContext]. *)
Definition reads (c : dbcall) : bool :=
  match c with
  | db_Exec _ _ => false
  | db_Query _ _ | db_QueryContext _ _ => true
  end.

(** The rounds of [InsertAll]'s first loop do not find two tables. *)
Definition one_table (objs : list Entity) : Prop :=
  forall a b, a ∈ objs -> b ∈ objs -> Table (getSchemaFor a) = Table (getSchemaFor b).

End orm.

(** ** Sample entities

    The entities of the README: users, and posts with their comments and
    categories. *)

Module sample.
Import querybuilder orm.

Definition users (d : Dialect) : schema :=
  mkSchema "users" [mkField "id" true; mkField "name" false; mkField "email" false] ∅ d.

Definition alice (d : Dialect) : Entity :=
  mkEntity (users d) [VInt 1; VStr "alice"; VStr "alice@example.org"].
Definition bob (d : Dialect) : Entity :=
  mkEntity (users d) [VInt 2; VStr "bob"; VStr "bob@example.org"].

(** A post has many comments, belongs to many categories through
    [post_categories], and belongs to many tags through a table that was
    left out of the config. *)
Definition posts (d : Dialect) : schema :=
  mkSchema "posts" [mkField "id" true; mkField "title" false]
    (<["comments" := RelHasMany (HasManyConfig.mk "" "")]>
       (<["categories" := RelBelongsToMany
                            (BelongsToManyConfig.mk "post_categories" "" "" "" "")]>
          (<["tags" := RelBelongsToMany (BelongsToManyConfig.mk "" "" "" "" "")]> ∅)))
    d.
Definition comments (d : Dialect) : schema :=
  mkSchema "comments" [mkField "id" true; mkField "post_id" false; mkField "body" false] ∅ d.
Definition categories (d : Dialect) : schema :=
  mkSchema "categories" [mkField "id" true; mkField "name" false] ∅ d.
Definition tags (d : Dialect) : schema :=
  mkSchema "tags" [mkField "id" true; mkField "label" false] ∅ d.

Definition post (d : Dialect) : Entity := mkEntity (posts d) [VInt 7; VStr "hello"].
Definition comment (d : Dialect) : Entity := mkEntity (comments d) [VNil; VNil; VNil].
Definition category (d : Dialect) : Entity := mkEntity (categories d) [VNil; VNil].
Definition tag (d : Dialect) : Entity := mkEntity (tags d) [VNil; VNil].

(** The singular of the sample's table names. *)
Definition singular (s : string) : string :=
  if String.eqb s "posts" then "post"
  else if String.eqb s "categories" then "category"
  else s.

(** A database that answers every call with no rows and no error. *)
Definition no_rows : DB -> string -> list value -> unit * option error :=
  fun _ _ _ => (tt, None).
Definition inserted : DB -> string -> list value -> sqlResult * option error :=
  fun _ _ _ => (mkResult (1%Z, None), None).
Definition keep_one : schema -> unit -> Entity -> Entity * option error :=
  fun _ _ e => (e, None).
Definition keep_many : schema -> unit -> list Entity -> list Entity * option error :=
  fun _ _ es => (es, None).
End sample.

(** More sample entities: comments that belong to a post, with an empty
    config, and answers for the remaining entry points. *)

Module sample_more.
Import querybuilder orm.

Definition replies (d : Dialect) : schema :=
  mkSchema "comments" [mkField "id" true; mkField "post_id" false; mkField "body" false]
    (<["posts" := RelBelongsTo (BelongsToConfig.mk "" "" "")]> ∅) d.

(** The comment 31, written under the post 7. *)
Definition reply (d : Dialect) : Entity :=
  mkEntity (replies d) [VInt 31; VInt 7; VStr "first"].

(** An entity type without fields. *)
Definition bare (d : Dialect) : Entity :=
  mkEntity (mkSchema "bare" [] (<["posts" := RelBelongsTo (BelongsToConfig.mk "" "" "")]> ∅) d) [].


(** A new user, whose key the database has not set yet. *)
Definition newcomer (d : Dialect) : Entity :=
  mkEntity (sample.users d) [VInt 0; VStr "carol"; VStr "carol@example.org"].

(** A database that refuses every call. *)
Definition refused : DB -> string -> list value -> sqlResult * option error :=
  fun _ _ _ => (mkResult (0%Z, None), Some "database is closed").
Definition bound_by_value : schema -> unit -> list Entity -> run (option error) :=
  fun _ _ _ => Returned None.
End sample_more.

(** ** Facts about strings *)

Lemma append_cons (x : ascii) (a b : string) : String x a +:+ b = String x (a +:+ b).
Proof. reflexivity. Qed.

Lemma append_assoc (a b c : string) : (a +:+ b) +:+ c = a +:+ (b +:+ c).
Proof. induction a as [|x a IH]; [reflexivity | now rewrite !append_cons, IH]. Qed.

Lemma append_nil_r (a : string) : a +:+ "" = a.
Proof. induction a as [|x a IH]; [reflexivity | now rewrite append_cons, IH]. Qed.

Lemma Join_cons2 (x y : string) (l : list string) (sep : string) :
  Join (x :: y :: l) sep = x +:+ sep +:+ Join (y :: l) sep.
Proof. reflexivity. Qed.

Lemma Join_app (l1 l2 : list string) (sep : string) :
  l1 <> [] -> l2 <> [] ->
  Join (l1 ++ l2) sep = Join l1 sep +:+ sep +:+ Join l2 sep.
Proof.
  intros H1 H2. induction l1 as [|x l1 IH]; [congruence|].
  destruct l1 as [|y l1].
  - destruct l2 as [|z l2]; [congruence | reflexivity].
  - change ((x :: y :: l1) ++ l2) with (x :: y :: (l1 ++ l2)).
    rewrite !Join_cons2. change (y :: l1 ++ l2) with ((y :: l1) ++ l2).
    rewrite IH by discriminate. now rewrite !append_assoc.
Qed.

Section BuilderFacts.
Import builder.

(** *** WHERE chains *)

Lemma filters_set_filters q fs : filters (set_filters q fs) = fs.
Proof. reflexivity. Qed.

Lemma alter_last {A} (f : A -> A) (l : list A) (x : A) :
  alter f (length l) (l ++ [x]) = l ++ [f x].
Proof.
  replace (length l) with (length l + 0) by lia.
  now rewrite alter_app_r.
Qed.

Lemma connect_last (q : query) (fs : list whereClause) (cs : list string)
      (call : connector * list string) :
  connect (mkWhereRef (set_filters q (fs ++ [mkWhere cs])) (length fs)) call
  = mkWhereRef (set_filters q (fs ++ [mkWhere (cs ++ [fragment call])])) (length fs).
Proof.
  destruct call as [[| |] parts]; unfold connect, And, Or, Not, where_append, fragment;
    simpl; rewrite alter_last; reflexivity.
Qed.

Lemma chain_state (q : query) (fs : list whereClause) (cs : list string)
      (calls : list (connector * list string)) :
  fold_left connect calls (mkWhereRef (set_filters q (fs ++ [mkWhere cs])) (length fs))
  = mkWhereRef (set_filters q (fs ++ [mkWhere (cs ++ map fragment calls)])) (length fs).
Proof.
  revert cs. induction calls as [|call calls IH]; intros cs; simpl.
  - now rewrite app_nil_r.
  - rewrite connect_last, IH, <- app_assoc. reflexivity.
Qed.

Lemma chain_eq (q : query) (parts0 : list string) (calls : list (connector * list string)) :
  chain q parts0 calls
  = mkWhereRef
      (set_filters q (filters q ++ [mkWhere (Join parts0 " " :: map fragment calls)]))
      (length (filters q)).
Proof.
  unfold chain, Where. rewrite chain_state. reflexivity.
Qed.

Lemma where_sections_snoc (q : query) (fs : list whereClause) (w : whereClause) :
  where_sections (set_filters q (fs ++ [w]))
  = "WHERE" :: map where_String fs ++ [where_String w].
Proof.
  unfold where_sections. rewrite filters_set_filters.
  destruct (fs ++ [w]) as [|a l] eqn:E.
  - destruct fs; discriminate.
  - rewrite <- E, map_app. reflexivity.
Qed.

(** C4: a WHERE clause started with [Where] and continued with connector
    calls holds the first fragment as it is and every later fragment
    behind the connector of its call; the clause reads as these fragments
    separated by single spaces, and [SQL] puts it behind the WHERE keyword.
    [Where("y = ?")] then [And("x = ?")] on table [t] reads
    [WHERE y = ? AND x = ?]. *)
Theorem where_chain_rendering
        (q : query) (parts0 : list string) (calls : list (connector * list string)) :
  let w := chain q parts0 calls in
  let clause := mkWhere (Join parts0 " " :: map fragment calls) in
  deref w = Some clause
  /\ where_String clause = Join (Join parts0 " " :: map fragment calls) " "
  /\ where_sections (Query w)
     = "WHERE" :: map where_String (filters q) ++ [where_String clause]
  /\ SQL_text (Query (And (Where (Table NewQuery "t") ["y = ?"]) ["x = ?"]))
     = "SELECT * FROM t WHERE y = ? AND x = ?".
Proof.
  intros w clause. subst w. rewrite chain_eq. unfold deref, Query. simpl w_parent. simpl w_idx.
  repeat split.
  - rewrite filters_set_filters. apply list_lookup_middle. reflexivity.
  - apply where_sections_snoc.
Qed.

(** *** What [SQL] returns *)

Lemma SQL_empty_table (q : query) :
  table q = "" -> snd (SQL q) = ("", Some (Errorf "table name cannot be empty")).
Proof.
  intros H. unfold SQL. destruct (projected q); simpl; rewrite H; reflexivity.
Qed.

Lemma SQL_sections (q : query) :
  table q <> "" ->
  snd (SQL q) = (Join (head_sections q ++ join_sections q) " ", None).
Proof.
  intros H. apply String.eqb_neq in H. unfold SQL, head_sections.
  destruct (projected q) as [p|] eqn:E; simpl; rewrite ?E, H; simpl;
    rewrite <- ?app_assoc; reflexivity.
Qed.

(** *** Joins *)

Lemma declare_joins (q : query) (d : joinDecl) :
  declare q d
  = set_joins q (joins q ++ [mkJoin (joinKind_String (d_kind d)) (d_table d) (Join (d_on d) " ")]).
Proof.
  unfold declare, On, InnerJoin, RightJoin, LeftJoin, FullOuterJoin, add_join.
  destruct (d_kind d); simpl; rewrite alter_last; reflexivity.
Qed.

Lemma declare_all_joins (ds : list joinDecl) (q : query) :
  fold_left declare ds q = set_joins q (joins q ++ map declared ds).
Proof.
  revert q. induction ds as [|d ds IH]; intros q; simpl.
  - rewrite app_nil_r. now destruct q.
  - rewrite IH, declare_joins. unfold set_joins; simpl. now rewrite <- app_assoc.
Qed.

Lemma join_String_declared (d : joinDecl) : join_String (declared d) = joinDecl_String d.
Proof. reflexivity. Qed.

Lemma head_sections_set_joins (q : query) (js : list joinClause) :
  head_sections (set_joins q js) = head_sections q.
Proof. reflexivity. Qed.

(** C5: on a query with a table, joins declared one after the other each
    read [<TYPE> JOIN <table> ON <condition>], and [SQL] lists them in the
    order of their declaration behind everything else: the statement is the
    one without the joins (SELECT, FROM, WHERE, ORDER BY, GROUP BY), a
    space, and the joins separated by single spaces. *)
Theorem joins_rendered_last (q : query) (ds : list joinDecl) :
  table q <> "" -> joins q = [] -> ds <> [] ->
  let q' := fold_left declare ds q in
  SQL_err q' = None
  /\ map join_String (joins q') = map joinDecl_String ds
  /\ SQL_text q'
     = Join (["SELECT"; select_String (default default_projection (projected q));
              "FROM " +:+ table q]
             ++ where_sections q ++ orderby_sections q ++ groupby_sections q
             ++ map joinDecl_String ds) " "
  /\ SQL_text q' = SQL_text q +:+ " " +:+ Join (map joinDecl_String ds) " ".
Proof.
  intros Ht Hj Hd q'. subst q'. rewrite declare_all_joins, Hj. simpl app.
  assert (Hm : map join_String (map declared ds) = map joinDecl_String ds).
  { rewrite map_map. apply map_ext. intros d. apply join_String_declared. }
  unfold SQL_err, SQL_text.
  rewrite (SQL_sections (set_joins q (map declared ds))) by exact Ht.
  rewrite (SQL_sections q) by exact Ht.
  rewrite head_sections_set_joins. unfold join_sections. simpl joins. rewrite Hj, Hm.
  change (map join_String []) with (@nil string). rewrite app_nil_r.
  cbn [fst snd].
  split; [reflexivity|]. split; [reflexivity|]. split.
  - unfold head_sections. now rewrite <- !app_assoc.
  - apply Join_app; [discriminate | destruct ds; [congruence | discriminate]].
Qed.

(** *** The table check *)

Section WrapperFacts.
Variables (ctx Result dest : Type) (Background : ctx).
Variable exec_answer : DB ctx -> ctx -> string -> list value -> option Result * option error.
Variable bind_answer : DB ctx -> ctx -> dest -> string -> list value -> dest * option error.

Lemma wrappers_empty_table (q : query) (db : DB ctx) (c : ctx) (v : dest) (args : list value) :
  table q = "" ->
  handle_after ctx (Exec ctx Background Result exec_answer q db args) = db
  /\ returned ctx (Exec ctx Background Result exec_answer q db args)
     = (None, Some no_table)
  /\ handle_after ctx (ExecContext ctx Background Result exec_answer q c db args) = db
  /\ returned ctx (ExecContext ctx Background Result exec_answer q c db args)
     = (None, Some no_table)
  /\ handle_after ctx (Bind ctx Background dest bind_answer q db v args) = db
  /\ returned ctx (Bind ctx Background dest bind_answer q db v args)
     = (v, Some no_table)
  /\ handle_after ctx (BindContext ctx dest bind_answer q c db v args) = db
  /\ returned ctx (BindContext ctx dest bind_answer q c db v args)
     = (v, Some no_table).
Proof.
  intros H. pose proof (SQL_empty_table q H) as E.
  unfold handle_after, returned, Exec, ExecContext, Bind, BindContext.
  destruct (SQL q) as [q1 [s e]]. simpl in E. injection E as -> ->.
  repeat split.
Qed.

(** C3, as the code has it: a query without a table name does not
    finalize - [SQL] returns the empty string and an error, and [Exec],
    [ExecContext], [Bind] and [BindContext] return that error and leave
    the database handle as it was.  With a table name [SQL] succeeds
    whatever else is missing: a missing WHERE, ORDER BY or GROUP BY (or
    join) contributes nothing to the statement, while a missing
    projection is written as the default [SELECT *]. *)
Theorem SQL_table_check (q : query) (db : DB ctx) (c : ctx) (v : dest) (args : list value) :
  (table q = "" ->
     snd (SQL q) = ("", Some no_table)
     /\ handle_after ctx (Exec ctx Background Result exec_answer q db args) = db
     /\ returned ctx (Exec ctx Background Result exec_answer q db args)
        = (None, Some no_table)
     /\ handle_after ctx (ExecContext ctx Background Result exec_answer q c db args) = db
     /\ returned ctx (ExecContext ctx Background Result exec_answer q c db args)
        = (None, Some no_table)
     /\ handle_after ctx (Bind ctx Background dest bind_answer q db v args) = db
     /\ returned ctx (Bind ctx Background dest bind_answer q db v args)
        = (v, Some no_table)
     /\ handle_after ctx (BindContext ctx dest bind_answer q c db v args) = db
     /\ returned ctx (BindContext ctx dest bind_answer q c db v args)
        = (v, Some no_table))
  /\ (table q <> "" ->
      SQL_err q = None
      /\ SQL_text q
         = Join (["SELECT"; select_String (default default_projection (projected q));
                  "FROM " +:+ table q]
                 ++ where_sections q ++ orderby_sections q ++ groupby_sections q
                 ++ join_sections q) " "
      /\ (filters q = [] -> where_sections q = [])
      /\ (orderBy q = None -> orderby_sections q = [])
      /\ (groupBy q = None -> groupby_sections q = [])
      /\ (joins q = [] -> join_sections q = [])
      /\ (projected q = None ->
          select_String (default default_projection (projected q)) = "*")).
Proof.
  split.
  - intros H. split; [now apply SQL_empty_table | now apply wrappers_empty_table].
  - intros H. unfold SQL_err, SQL_text. rewrite (SQL_sections q H). cbn [fst snd].
    split; [reflexivity|]. split.
    { unfold head_sections. now rewrite <- !app_assoc. }
    unfold where_sections, orderby_sections, groupby_sections, join_sections.
    repeat split; intros ->; reflexivity.
Qed.
End WrapperFacts.

(** C3 as stated fails on the projection: with a table and no projection
    the statement is not the one with the projection left out. *)
Lemma omitted_projection_is_rendered :
  let q := Table NewQuery "t" in
  projected q = None
  /\ SQL_err q = None
  /\ SQL_text q = "SELECT * FROM t"
  /\ SQL_text q
     <> Join (["FROM " +:+ table q] ++ where_sections q ++ orderby_sections q
              ++ groupby_sections q ++ join_sections q) " ".
Proof. repeat split. discriminate. Qed.

End BuilderFacts.

(** ** Facts about package [orm] *)

Section OrmFacts.
Import querybuilder orm.

(** *** Columns and values *)

Lemma filter_zip_fst {A B} (P : A -> bool) (l : list A) (vs : list B) :
  length vs = length l ->
  map fst (filter (fun fv => P (fst fv) = true) (zip l vs)) = filter (fun f => P f = true) l.
Proof.
  revert vs. induction l as [|a l IH]; intros [|v vs] H; try discriminate; [reflexivity|].
  simpl zip. rewrite !filter_cons. simpl fst.
  destruct (decide (P a = true)); simpl; rewrite IH by (simpl in H; lia); reflexivity.
Qed.

Lemma values_columns_length (obj : Entity) (withPK : bool) :
  well_formed obj ->
  length (genericValuesOf obj withPK) = length (Columns (getSchemaFor obj) withPK).
Proof.
  intros H. unfold genericValuesOf, Columns. rewrite !length_map.
  rewrite <- (filter_zip_fst (keep withPK) _ (ent_values obj)) by exact H.
  now rewrite length_map.
Qed.

Lemma toMap_loop_zip (cols : list string) (vs : list value) (i : nat) :
  i + length cols <= length vs ->
  toMap_loop i cols vs = Returned (zip_with mkKV cols (drop i vs)).
Proof.
  revert i. induction cols as [|col cols IH]; intros i H; [reflexivity|].
  simpl in H. simpl toMap_loop. unfold index.
  destruct (vs !! i) as [v|] eqn:E.
  - simpl. rewrite IH by lia. simpl.
    rewrite (drop_S _ _ _ E). reflexivity.
  - apply lookup_ge_None in E. lia.
Qed.

Lemma toMap_zip (obj : Entity) (withPK : bool) :
  well_formed obj ->
  toMap obj withPK
  = Returned (zip_with mkKV (Columns (getSchemaFor obj) withPK) (genericValuesOf obj withPK)).
Proof.
  intros H. unfold toMap. rewrite toMap_loop_zip.
  - reflexivity.
  - rewrite (values_columns_length obj withPK H). simpl. lia.
Qed.

(** *** The loop of [Update] *)

Lemma map_Key_zip (cols : list string) (vs : list value) :
  length vs = length cols -> map Key (zip_with mkKV cols vs) = cols.
Proof.
  revert vs. induction cols as [|c cols IH]; intros [|v vs] H; try discriminate; [reflexivity|].
  simpl. f_equal. apply IH. simpl in H. lia.
Qed.

Lemma map_Value_zip (cols : list string) (vs : list value) :
  length vs = length cols -> map Value (zip_with mkKV cols vs) = vs.
Proof.
  revert vs. induction cols as [|c cols IH]; intros [|v vs] H; try discriminate; [reflexivity|].
  simpl. f_equal. apply IH. simpl in H. lia.
Qed.

Lemma Update_loop (d : Dialect) (kvs : list (keyValue value)) (query : Update.t) (n : nat) :
  fold_left (Update_step d) kvs (query, Z.of_nat n)
  = (Update.mk (Update.table query) (Update.where_ query)
               (Update.set query ++ numbered d n (map Key kvs))
               (Update.args query ++ map Value kvs),
     Z.of_nat (n + length kvs)).
Proof.
  revert query n. induction kvs as [|kv kvs IH]; intros query n.
  - simpl. unfold numbered. simpl. rewrite !app_nil_r, Nat.add_0_r. now destruct query.
  - simpl fold_left.
    replace (Z.of_nat n + 1)%Z with (Z.of_nat (S n)) by lia.
    rewrite IH. unfold Update.WithArgs, Update.Set_; simpl.
    unfold numbered, nth_placeholder; simpl. rewrite <- !app_assoc. simpl.
    repeat f_equal. lia.
Qed.

Lemma first_placeholder_nth (d : Dialect) : first_placeholder d = nth_placeholder d 1.
Proof. reflexivity. Qed.

Lemma Update_query_eq (obj : Entity) :
  well_formed obj ->
  let s := getSchemaFor obj in
  Update_query obj
  = Returned
      (Update.mk (getTable s)
         (Equal (pkName s) (nth_placeholder (getDialect s) 1))
         (numbered (getDialect s) 2 (Columns s false))
         (genericValuesOf obj false ++ [genericGetPKValue obj])).
Proof.
  intros Hwf s. subst s.
  unfold Update_query. rewrite (toMap_zip obj false Hwf). simpl run_bind.
  change 2%Z with (Z.of_nat 2). rewrite Update_loop.
  pose proof (values_columns_length obj false Hwf) as Hl.
  rewrite map_Key_zip, map_Value_zip by exact Hl.
  reflexivity.
Qed.



(** *** The relation resolver *)

Section Resolver.
Variable Singular : string -> string.
Variable Rows : Type.
Variable query_answer : DB -> string -> list value -> Rows * option error.
Variable bind_one : schema -> Rows -> Entity -> Entity * option error.
Variable bind_many : schema -> Rows -> list Entity -> list Entity * option error.

Lemma Select_Build_where (tb w : string) (args : list value) :
  tb <> "" ->
  Select.Build (Select.WithArgs (Select.Where (Select.From Select.zero tb) w) args)
  = ("SELECT * FROM " +:+ tb +:+ " WHERE " +:+ w, args).
Proof.
  intros H. apply String.eqb_neq in H. unfold Select.Build. simpl. rewrite H.
  reflexivity.
Qed.

Lemma calls_bindContext {D} (binder : schema -> Rows -> D -> D * option error)
      (T : Entity) (output : D) (q : string) (args : list value) (db : DB) :
  calls (bindContext Rows query_answer binder T output q args) db
  = db ++ [db_QueryContext q args].
Proof.
  unfold calls, bindContext, bind, dbQueryContext, ret.
  destruct (query_answer db q args) as [rows [e|]]; reflexivity.
Qed.

(** C6: when the owner's config for the target table is a HasMany config
    whose PropertyForeignKey is empty, [HasMany] resolves the foreign key to
    the singular of the owner's table followed by [_id]; an empty
    PropertyTable resolves to the table of the target schema; and the
    statement sent to the database selects from the resolved table where the
    resolved foreign key equals the placeholder.  With [posts] singularised
    to [post], the foreign key of owner table [posts] is [post_id]. *)
Theorem HasMany_default_foreign_key
        (OUT owner : Entity) (c : HasManyConfig.t) (db : DB) :
  relations (getSchemaFor owner) !! Table (getSchemaFor OUT) = Some (RelHasMany c) ->
  let c' := HasMany_defaults Singular c owner (schemaOf OUT) in
  (HasManyConfig.PropertyForeignKey c = "" ->
     HasManyConfig.PropertyForeignKey c'
     = Singular (getTable (getSchemaFor owner)) +:+ "_id")
  /\ (HasManyConfig.PropertyTable c = "" ->
      HasManyConfig.PropertyTable c' = Table (getSchemaFor OUT))
  /\ (HasManyConfig.PropertyTable c' <> "" ->
      calls (HasMany Singular Rows query_answer bind_many OUT owner) db
      = db ++ [db_QueryContext
                 ("SELECT * FROM " +:+ HasManyConfig.PropertyTable c' +:+ " WHERE "
                    +:+ HasManyConfig.PropertyForeignKey c' +:+ "="
                    +:+ first_placeholder (getDialect (getSchemaFor owner)))
                 [genericGetPKValue owner]])
  /\ (HasManyConfig.PropertyForeignKey c = "" ->
      getTable (getSchemaFor owner) = "posts" -> Singular "posts" = "post" ->
      HasManyConfig.PropertyForeignKey c' = "post_id").
Proof.
  intros Hrel c'.
  assert (Hfk' : HasManyConfig.PropertyForeignKey c = "" ->
                 HasManyConfig.PropertyForeignKey c'
                 = Singular (getTable (getSchemaFor owner)) +:+ "_id").
  { intros Hfk. subst c'. unfold HasMany_defaults.
    destruct (String.eqb (HasManyConfig.PropertyTable c) ""); simpl; rewrite Hfk; reflexivity. }
  split; [exact Hfk'|]. split; [|split].
  - intros Ht. subst c'. unfold HasMany_defaults. rewrite Ht. simpl.
    destruct (String.eqb (HasManyConfig.PropertyForeignKey c) ""); reflexivity.
  - intros Ht. unfold HasMany. rewrite Hrel. fold c'.
    rewrite (Select_Build_where _ _ _ Ht).
    destruct (String.eqb_spec
                ("SELECT * FROM " +:+ HasManyConfig.PropertyTable c' +:+ " WHERE "
                   +:+ Equal (HasManyConfig.PropertyForeignKey c')
                         (first_placeholder (getDialect (getSchemaFor owner)))) "")
      as [E|_]; [discriminate E|].
    unfold calls, bind.
    pose proof (calls_bindContext bind_many OUT []
                  ("SELECT * FROM " +:+ HasManyConfig.PropertyTable c' +:+ " WHERE "
                     +:+ Equal (HasManyConfig.PropertyForeignKey c')
                           (first_placeholder (getDialect (getSchemaFor owner))))
                  [genericGetPKValue owner] db) as Hc.
    unfold calls in Hc.
    destruct (bindContext _ _ _ _ _ _ _ db) as [db' [[out [e|]]|r]]; simpl in Hc |- *;
      subst db'; reflexivity.
  - intros Hfk Ho Hs. rewrite (Hfk' Hfk), Ho, Hs. reflexivity.
Qed.

(** C7: a relation function that does not find, under the target table in
    the schema of the entity it is called on, a config of its own kind -
    whether it finds a config of another kind or none - returns its
    misconfigured-relation error and makes no call to the database. *)
Theorem relation_variant_mismatch (k : relation) (T e : Entity) (db : DB) :
  variant <$> (relations (getSchemaFor e) !! Table (getSchemaFor T)) <> Some k ->
  invoke Singular Rows query_answer bind_one bind_many k T e db
  = (db, Returned (Some (misconfigured k))).
Proof.
  intros H. unfold invoke, HasMany, HasOne, BelongsTo, BelongsToMany.
  destruct (relations (getSchemaFor e) !! Table (getSchemaFor T)) as [[c|c|c|c]|];
    destruct k; try reflexivity; exfalso; apply H; reflexivity.
Qed.

Lemma BelongsToMany_IntermediateTable_foreign (c : BelongsToManyConfig.t) (OWNER : Entity) :
  BelongsToManyConfig.IntermediateTable (BelongsToMany_defaults_foreign c OWNER)
  = BelongsToManyConfig.IntermediateTable c.
Proof.
  unfold BelongsToMany_defaults_foreign.
  destruct (String.eqb (BelongsToManyConfig.ForeignLookupColumn c) ""); simpl;
    destruct (String.eqb (BelongsToManyConfig.ForeignTable c) ""); reflexivity.
Qed.

Lemma BelongsToMany_calls (OWNER property : Entity) (c : BelongsToManyConfig.t) (db : DB) :
  relations (getSchemaFor property) !! Table (getSchemaFor OWNER) = Some (RelBelongsToMany c) ->
  BelongsToManyConfig.IntermediateTable c <> "" ->
  calls (BelongsToMany Singular Rows query_answer bind_many OWNER property) db
  = db ++ [db_Query
             (BelongsToMany_text
                (BelongsToMany_defaults_intermediate Singular
                   (BelongsToMany_defaults_foreign c OWNER) OWNER property) OWNER)
             [genericGetPKValue property]].
Proof.
  intros Hrel Hi. unfold BelongsToMany. rewrite Hrel.
  rewrite BelongsToMany_IntermediateTable_foreign.
  apply String.eqb_neq in Hi. rewrite Hi.
  unfold calls, bind, dbQuery, ret.
  destruct (query_answer db _ _) as [rows [e|]]; [reflexivity|].
  destruct (bind_many _ rows []) as [output [e|]]; reflexivity.
Qed.

(** C8: [BelongsToMany] with a config whose IntermediateTable is empty
    returns its configuration error and makes no call to the database.  With
    an intermediate table it goes on to query the database, and every other
    field that is empty is filled in: the lookup column with the owner's
    primary key, the foreign table with the owner's table, and the two
    intermediate ids with the singular of the property's and of the owner's
    table followed by [_id]. *)
Theorem BelongsToMany_intermediate_table
        (OWNER property : Entity) (c : BelongsToManyConfig.t) (db : DB) :
  relations (getSchemaFor property) !! Table (getSchemaFor OWNER) = Some (RelBelongsToMany c) ->
  let c' := BelongsToMany_defaults_intermediate Singular
              (BelongsToMany_defaults_foreign c OWNER) OWNER property in
  (BelongsToManyConfig.IntermediateTable c = "" ->
     BelongsToMany Singular Rows query_answer bind_many OWNER property db
     = (db, Returned ([], Some (Errorf "cannot infer intermediate table yet"))))
  /\ (BelongsToManyConfig.IntermediateTable c <> "" ->
      calls (BelongsToMany Singular Rows query_answer bind_many OWNER property) db
      = db ++ [db_Query (BelongsToMany_text c' OWNER) [genericGetPKValue property]])
  /\ BelongsToManyConfig.IntermediateTable c' = BelongsToManyConfig.IntermediateTable c
  /\ (BelongsToManyConfig.ForeignLookupColumn c = "" ->
      BelongsToManyConfig.ForeignLookupColumn c' = pkName (getSchemaFor OWNER))
  /\ (BelongsToManyConfig.ForeignTable c = "" ->
      BelongsToManyConfig.ForeignTable c' = Table (getSchemaFor OWNER))
  /\ (BelongsToManyConfig.IntermediatePropertyID c = "" ->
      BelongsToManyConfig.IntermediatePropertyID c'
      = Singular (Table (getSchemaFor property)) +:+ "_id")
  /\ (BelongsToManyConfig.IntermediateOwnerID c = "" ->
      BelongsToManyConfig.IntermediateOwnerID c'
      = Singular (Table (getSchemaFor OWNER)) +:+ "_id").
Proof.
  intros Hrel c'. split; [|split].
  - intros Hi. unfold BelongsToMany. rewrite Hrel.
    rewrite BelongsToMany_IntermediateTable_foreign, Hi. reflexivity.
  - intros Hi. apply (BelongsToMany_calls OWNER property c db Hrel Hi).
  - subst c'. unfold BelongsToMany_defaults_intermediate, BelongsToMany_defaults_foreign.
    destruct c as [it ip io ft fl]. simpl.
    destruct (String.eqb_spec fl ""); simpl;
      destruct (String.eqb_spec ft ""); simpl;
      destruct (String.eqb_spec ip ""); simpl;
      destruct (String.eqb_spec io ""); simpl;
      repeat split; intros; subst; congruence.
Qed.

(** C9: [Add] returns a nil error for any arguments, makes no call to the
    database and leaves its arguments as they are. *)
Theorem Add_is_a_stub (to : Entity) (items : list Entity) (db : DB) :
  Add to items db = (db, Returned (to, items, None)).
Proof. reflexivity. Qed.

End Resolver.
End OrmFacts.

Section MarkerFacts.
Import querybuilder orm.

(** *** Counting markers *)

Lemma count_char_app (c : ascii) (a b : string) :
  count_char c (a +:+ b) = count_char c a + count_char c b.
Proof.
  induction a as [|x a IH]; [reflexivity|].
  rewrite append_cons. simpl. rewrite IH. lia.
Qed.

Lemma count_char_Join (c : ascii) (l : list string) (sep : string) :
  count_char c sep = 0 ->
  count_char c (Join l sep) = list_sum (map (count_char c) l).
Proof.
  intros Hs. induction l as [|x l IH]; [reflexivity|].
  destruct l as [|y l].
  - simpl. lia.
  - rewrite Join_cons2, !count_char_app, IH, Hs. simpl. lia.
Qed.

Lemma count_char_uint (c : ascii) (d : uint) :
  marker_char c -> count_char c (NilEmpty.string_of_uint d) = 0.
Proof.
  intros Hc. induction d; simpl; rewrite ?IHd; destruct Hc; subst; reflexivity.
Qed.

Lemma count_char_Sprint (c : ascii) (n : Z) :
  marker_char c -> count_char c (Sprint n) = 0.
Proof.
  intros Hc. unfold Sprint. destruct (Z.to_int n) as [d|d]; simpl.
  - now apply count_char_uint.
  - rewrite count_char_uint by exact Hc. destruct Hc; subst; reflexivity.
Qed.

Lemma list_sum_cons (x : nat) (l : list nat) : list_sum (x :: l) = x + list_sum l.
Proof. reflexivity. Qed.

Lemma list_sum_zero {A} (f : A -> nat) (l : list A) :
  Forall (fun x => f x = 0) l -> list_sum (map f l) = 0.
Proof. induction 1 as [|x l Hx _ IH]; simpl; lia. Qed.

Lemma list_sum_one {A} (f : A -> nat) (l : list A) :
  Forall (fun x => f x = 1) l -> list_sum (map f l) = length l.
Proof. induction 1 as [|x l Hx _ IH]; simpl; lia. Qed.


Lemma markers_standard (d : Dialect) (c : ascii) (text : string) :
  standard d c -> markers d text = count_char c text.
Proof. intros [H _]. unfold markers. now rewrite H. Qed.

Lemma clean_Columns (c : ascii) (s : schema) (withPK : bool) :
  clean c s -> Forall (fun col => count_char c col = 0) (Columns s withPK).
Proof.
  intros [_ H]. unfold Columns. apply Forall_map.
  induction H as [|f l Hf _ IH]; [constructor|].
  rewrite filter_cons. destruct (decide _); [constructor|]; assumption.
Qed.

Lemma clean_pkName (c : ascii) (s : schema) : clean c s -> count_char c (pkName s) = 0.
Proof.
  intros [_ H]. unfold pkName. induction H as [|f l Hf _ IH]; [reflexivity|].
  simpl. destruct (IsPK f); assumption.
Qed.

Lemma nth_placeholder_count (d : Dialect) (c : ascii) (i : nat) :
  standard d c -> count_char c (nth_placeholder d i) = 1.
Proof.
  intros [Hd Hc]. unfold nth_placeholder. rewrite Hd.
  destruct (IncludeIndexInPlaceholder d).
  - rewrite count_char_app, count_char_Sprint by exact Hc. simpl.
    rewrite Ascii.eqb_refl. reflexivity.
  - simpl. rewrite Ascii.eqb_refl. reflexivity.
Qed.

Lemma row_placeholders_count (d : Dialect) (c : ascii) (n : nat) :
  standard d c ->
  Forall (fun ph => count_char c ph = 1) (row_placeholders d n)
  /\ length (row_placeholders d n) = n.
Proof.
  intros [Hd Hc]. unfold row_placeholders. rewrite Hd.
  destruct Hc as [-> | ->]; simpl.
  - unfold PlaceHolderGenerators.MySQL. split; [|apply repeat_length].
    apply Forall_forall. intros x Hx. apply list_elem_of_In, repeat_spec in Hx. now subst.
  - unfold PlaceHolderGenerators.Postgres. split; [|now rewrite length_map, length_seq].
    apply Forall_map, Forall_forall. intros i _.
    rewrite count_char_app, count_char_Sprint by (right; reflexivity). reflexivity.
Qed.

(** The single-row [Insert] keeps the invariant. *)
Lemma Insert_markers (obj : Entity) (c : ascii) :
  well_formed obj ->
  standard (getDialect (getSchemaFor obj)) c ->
  clean c (getSchemaFor obj) ->
  markers (getDialect (getSchemaFor obj)) (fst (Insert_stmt obj))
  = length (snd (Insert_stmt obj)).
Proof.
  intros Hwf Hd Hcl. rewrite (markers_standard _ c _ Hd).
  unfold Insert_stmt, Insert.Build. simpl fst. simpl snd.
  rewrite (values_columns_length obj false Hwf).
  set (cols := Columns (getSchemaFor obj) false).
  destruct (row_placeholders_count _ c (length cols) Hd) as [Hph Hlen].
  pose proof (clean_Columns c _ false Hcl) as Hcols. fold cols in Hcols.
  destruct Hcl as [Ht _]. destruct Hd as [_ Hc].
  assert (Hcomma : count_char c "," = 0) by (destruct Hc; subst; reflexivity).
  cbn [Insert.table Insert.into Insert.values Insert.Table Insert.Into Insert.Values
       Insert.WithArgs Insert.zero app map].
  unfold Insert.row.
  change (Join [?x] ",") with x.
  rewrite !count_char_app, !count_char_Join by exact Hcomma.
  rewrite (list_sum_zero _ cols Hcols), (list_sum_one _ _ Hph), Hlen.
  unfold getTable. rewrite Ht.
  destruct Hc as [-> | ->]; simpl; lia.
Qed.

Lemma numbered_count (d : Dialect) (c : ascii) (cols : list string) (start : nat) :
  standard d c ->
  Forall (fun col => count_char c col = 0) cols ->
  list_sum (map (count_char c) (map Update.pair_String (numbered d start cols)))
  = length cols.
Proof.
  intros Hd Hcols. unfold numbered. revert start.
  induction Hcols as [|col cols Hcol _ IH]; intros start; [reflexivity|].
  simpl. rewrite IH. unfold Update.pair_String at 1. simpl.
  rewrite !count_char_app, Hcol, (nth_placeholder_count d c start Hd).
  destruct Hd as [_ [-> | ->]]; simpl; lia.
Qed.

(** [Update] keeps the invariant. *)
Lemma Update_markers (obj : Entity) (c : ascii) :
  well_formed obj ->
  standard (getDialect (getSchemaFor obj)) c ->
  clean c (getSchemaFor obj) ->
  exists q args,
    Update_stmt obj = Returned (q, args)
    /\ markers (getDialect (getSchemaFor obj)) q = length args.
Proof.
  intros Hwf Hd Hcl. unfold Update_stmt.
  rewrite (Update_query_eq obj Hwf). simpl run_bind. unfold Update.Build.
  cbn [Update.table Update.set Update.where_ Update.args].
  eexists _, _. split; [reflexivity|].
  rewrite (markers_standard _ c _ Hd).
  pose proof (clean_Columns c _ false Hcl) as Hcols.
  pose proof (clean_pkName c _ Hcl) as Hpk.
  pose proof (nth_placeholder_count _ c 1 Hd) as Hone.
  pose proof (numbered_count _ c _ 2 Hd Hcols) as Hset.
  destruct Hcl as [Ht _].
  assert (Hc : marker_char c) by apply Hd.
  assert (Hcomma : count_char c "," = 0) by (destruct Hc; subst; reflexivity).
  unfold Equal.
  rewrite !count_char_app, count_char_Join by exact Hcomma.
  rewrite Hset, Hpk, Hone. unfold getTable. rewrite Ht.
  rewrite length_app, (values_columns_length obj false Hwf). simpl length.
  destruct Hc as [-> | ->]; simpl; lia.
Qed.

(** [Delete] keeps the invariant. *)
Lemma Delete_markers (obj : Entity) (c : ascii) :
  standard (getDialect (getSchemaFor obj)) c ->
  clean c (getSchemaFor obj) ->
  markers (getDialect (getSchemaFor obj)) (fst (Delete_stmt obj))
  = length (snd (Delete_stmt obj)).
Proof.
  intros Hd Hcl. rewrite (markers_standard _ c _ Hd).
  unfold Delete_stmt, Delete.Build. simpl fst. simpl snd.
  pose proof (clean_pkName c _ Hcl) as Hpk.
  pose proof (nth_placeholder_count _ c 1 Hd) as Hone.
  destruct Hcl as [Ht _]. assert (Hc : marker_char c) by apply Hd.
  rewrite first_placeholder_nth. unfold Equal.
  rewrite !count_char_app, Hpk, Hone. unfold getTable. rewrite Ht.
  destruct Hc as [-> | ->]; simpl; lia.
Qed.

(** The Select statement of [Find] keeps the invariant. *)
Lemma Find_markers (T : Entity) (id : value) (c : ascii) :
  standard (dialect (getSchemaFor T)) c ->
  clean c (getSchemaFor T) ->
  markers (dialect (getSchemaFor T)) (fst (Find_stmt T id))
  = length (snd (Find_stmt T id)).
Proof.
  intros Hd Hcl. rewrite (markers_standard _ c _ Hd).
  unfold Find_stmt, Select.Build. simpl Select.table.
  destruct (String.eqb (Table (getSchemaFor T)) "") eqn:E.
  { simpl. apply String.eqb_eq in E. unfold markers. reflexivity. }
  simpl fst. simpl snd.
  pose proof (clean_pkName c _ Hcl) as Hpk.
  pose proof (nth_placeholder_count _ c 1 Hd) as Hone.
  pose proof (clean_Columns c _ true Hcl) as Hcols.
  destruct Hcl as [Ht _]. assert (Hc : marker_char c) by apply Hd.
  assert (Hcs : count_char c ", " = 0) by (destruct Hc; subst; reflexivity).
  rewrite first_placeholder_nth. unfold Equal.
  rewrite !count_char_app, count_char_Join by exact Hcs.
  rewrite (list_sum_zero _ _ Hcols), Hpk, Hone, Ht.
  destruct Hc as [-> | ->]; simpl; lia.
Qed.

(** *** The batch insert *)

Lemma InsertAll_fold (pos : list (list string * Entity)) (qb : Insert.t) :
  fold_left
    (fun qb po => Insert.WithArgs (Insert.Values qb (fst po))
                                  [VSlice (genericValuesOf (snd po) false)])
    pos qb
  = Insert.mk (Insert.table qb) (Insert.into qb)
      (Insert.values qb ++ map fst pos)
      (Insert.args qb ++ map (fun po => VSlice (genericValuesOf (snd po) false)) pos).
Proof.
  revert qb. induction pos as [|po pos IH]; intros qb; simpl.
  - rewrite !app_nil_r. now destruct qb.
  - rewrite IH. simpl. rewrite <- !app_assoc. reflexivity.
Qed.

Lemma InsertAll_stmt_eq (first : Entity) (objs : list Entity) :
  let cols := Columns (getSchemaFor first) false in
  InsertAll_stmt first objs
  = Insert.Build
      (Insert.mk (getTable (getSchemaFor first)) cols
         (map (fun obj => row_placeholders (getDialect (getSchemaFor obj)) (length cols)) objs)
         (map (fun obj => VSlice (genericValuesOf obj false)) objs)).
Proof.
  intros cols. unfold InsertAll_stmt. fold cols. rewrite InsertAll_fold. simpl.
  f_equal. f_equal.
  - rewrite fst_zip; [reflexivity | now rewrite length_map].
  - rewrite <- (map_map snd (fun o => VSlice (genericValuesOf o false))).
    rewrite snd_zip; [reflexivity | now rewrite length_map].
Qed.

(** X20: what [InsertAll] builds for the entities of one schema: a marker
    for every column of every row, and one argument for every row. *)
Lemma InsertAll_markers (first : Entity) (objs : list Entity) (c : ascii) :
  standard (getDialect (getSchemaFor first)) c ->
  clean c (getSchemaFor first) ->
  Forall (fun obj => getSchemaFor obj = getSchemaFor first) objs ->
  markers (getDialect (getSchemaFor first)) (fst (InsertAll_stmt first objs))
  = length objs * length (Columns (getSchemaFor first) false)
  /\ length (snd (InsertAll_stmt first objs)) = length objs.
Proof.
  intros Hd Hcl Hs. rewrite InsertAll_stmt_eq. unfold Insert.Build.
  cbn [fst snd Insert.table Insert.into Insert.values Insert.args].
  split; [|now rewrite length_map].
  rewrite (markers_standard _ c _ Hd).
  set (cols := Columns (getSchemaFor first) false).
  pose proof (clean_Columns c _ false Hcl) as Hcols. fold cols in Hcols.
  destruct (row_placeholders_count _ c (length cols) Hd) as [Hph Hlen].
  destruct Hcl as [Ht _]. assert (Hc : marker_char c) by apply Hd.
  assert (Hcomma : count_char c "," = 0) by (destruct Hc; subst; reflexivity).
  rewrite !count_char_app, !count_char_Join by exact Hcomma.
  rewrite (list_sum_zero _ cols Hcols). unfold getTable. rewrite Ht.
  assert (Hrows : list_sum (map (count_char c)
                    (map Insert.row
                       (map (fun obj => row_placeholders (getDialect (getSchemaFor obj))
                                                         (length cols)) objs)))
                  = length objs * length cols).
  { induction Hs as [|obj objs Ho _ IH]; [reflexivity|].
    rewrite !map_cons, list_sum_cons, IH, Ho. unfold Insert.row.
    rewrite !count_char_app, count_char_Join by exact Hcomma.
    rewrite (list_sum_one _ _ Hph), Hlen.
    destruct Hc as [-> | ->]; simpl; lia. }
  rewrite Hrows. destruct Hc as [-> | ->]; simpl; lia.
Qed.
(** *** The statement of [BelongsToMany] *)

Lemma BelongsToMany_text_marker (c : BelongsToManyConfig.t) (out : Entity) :
  clean "?" (getSchemaFor out) ->
  count_char "?" (BelongsToManyConfig.ForeignLookupColumn c) = 0 ->
  count_char "?" (BelongsToManyConfig.IntermediateOwnerID c) = 0 ->
  count_char "?" (BelongsToManyConfig.IntermediateTable c) = 0 ->
  count_char "?" (BelongsToManyConfig.IntermediatePropertyID c) = 0 ->
  count_char "?" (BelongsToMany_text c out) = 1.
Proof.
  intros Hcl Hl Ho Hi Hp. unfold BelongsToMany_text.
  pose proof (clean_Columns "?" _ true Hcl) as Hcols. destruct Hcl as [Ht _].
  rewrite !count_char_app, count_char_Join by reflexivity.
  rewrite (list_sum_zero _ _ Hcols), Ht, Hl, Ho, Hi, Hp. reflexivity.
Qed.

Section LiteralPlaceholder.
Variable Singular : string -> string.
Variable Rows : Type.
Variable query_answer : DB -> string -> list value -> Rows * option error.
Variable bind_many : schema -> Rows -> list Entity -> list Entity * option error.

(** C10: whatever the dialects of the two entities, numbered ones
    included, [BelongsToMany] sends the database the statement
    [select <columns> from <table> where <lookup> IN (select <owner id> from
    <intermediate> where <property id> = ?)], whose placeholder is the
    literal [?] of the format string - the only [?] in the text when no
    name contains one - together with exactly one argument, the
    primary-key value of the property entity. *)
Theorem BelongsToMany_literal_placeholder
        (d1 d2 : Dialect) (OWNER property : Entity) (c : BelongsToManyConfig.t) (db : DB) :
  relations (getSchemaFor property) !! Table (getSchemaFor OWNER) = Some (RelBelongsToMany c) ->
  BelongsToManyConfig.IntermediateTable c <> "" ->
  let c' := BelongsToMany_defaults_intermediate Singular
              (BelongsToMany_defaults_foreign c OWNER) OWNER property in
  let text := "select " +:+ Join (Columns (getSchemaFor OWNER) true) ","
                +:+ " from " +:+ Table (getSchemaFor OWNER)
                +:+ " where " +:+ BelongsToManyConfig.ForeignLookupColumn c'
                +:+ " IN (select " +:+ BelongsToManyConfig.IntermediateOwnerID c'
                +:+ " from " +:+ BelongsToManyConfig.IntermediateTable c'
                +:+ " where " +:+ BelongsToManyConfig.IntermediatePropertyID c'
                +:+ " = ?)" in
  calls (BelongsToMany Singular Rows query_answer bind_many
           (with_dialect d1 OWNER) (with_dialect d2 property)) db
  = db ++ [db_Query text [genericGetPKValue property]]
  /\ (clean "?" (getSchemaFor OWNER) ->
      count_char "?" (BelongsToManyConfig.ForeignLookupColumn c') = 0 ->
      count_char "?" (BelongsToManyConfig.IntermediateOwnerID c') = 0 ->
      count_char "?" (BelongsToManyConfig.IntermediateTable c') = 0 ->
      count_char "?" (BelongsToManyConfig.IntermediatePropertyID c') = 0 ->
      count_char "?" text = 1).
Proof.
  intros Hrel Hi c' text. split.
  - rewrite (BelongsToMany_calls Singular Rows query_answer bind_many
               (with_dialect d1 OWNER) (with_dialect d2 property) c db)
      by assumption.
    reflexivity.
  - apply (BelongsToMany_text_marker c' OWNER).
Qed.
End LiteralPlaceholder.
End MarkerFacts.

(** C1, where the code falls short of it: [InsertAll] on the two sample
    users writes four placeholder markers, one per column of every row, but
    returns two arguments, one boxed slice per row, and passes them to the
    database as a single argument; the single-row [Insert] spreads the same
    values and has as many arguments as markers. *)
Theorem InsertAll_arguments_not_spread
        (exec_answer : orm.DB -> string -> list value -> orm.sqlResult * option error) :
  let alice := sample.alice querybuilder.MySQL in
  let bob := sample.bob querybuilder.MySQL in
  let stmt := orm.InsertAll_stmt alice [alice; bob] in
  fst stmt = "INSERT INTO users (name,email) VALUES (?,?),(?,?)"
  /\ orm.markers querybuilder.MySQL (fst stmt) = 4
  /\ snd stmt = [VSlice [VStr "alice"; VStr "alice@example.org"];
                 VSlice [VStr "bob"; VStr "bob@example.org"]]
  /\ length (snd stmt) = 2
  /\ orm.calls (orm.InsertAll exec_answer [alice; bob]) []
     = [orm.db_Exec (fst stmt) [VSlice (snd stmt)]]
  /\ orm.Insert_stmt alice
     = ("INSERT INTO users (name,email) VALUES (?,?)",
        [VStr "alice"; VStr "alice@example.org"])
  /\ orm.markers querybuilder.MySQL (fst (orm.Insert_stmt alice))
     = length (snd (orm.Insert_stmt alice)).
Proof. repeat split. Qed.

(** ** The theorems at the sample entities *)

Section Witnesses.
Import querybuilder orm sample.

Lemma joins_rendered_last_witness :
  let q := builder.Query (builder.Where (builder.Table builder.NewQuery "t") ["x = ?"]) in
  let ds := [builder.mkDecl builder.LEFT "u" ["u.id = t.id"];
             builder.mkDecl builder.INNER "v" ["v.id = u.id"]] in
  builder.table q <> "" /\ builder.joins q = [] /\ ds <> []
  /\ builder.SQL_text (fold_left builder.declare ds q)
     = "SELECT * FROM t WHERE x = ? LEFT JOIN u ON u.id = t.id INNER JOIN v ON v.id = u.id".
Proof.
  intros q ds.
  assert (Ht : builder.table q <> "") by discriminate.
  assert (Hj : builder.joins q = []) by reflexivity.
  assert (Hd : ds <> []) by discriminate.
  split; [exact Ht|]. split; [exact Hj|]. split; [exact Hd|].
  destruct (joins_rendered_last q ds Ht Hj Hd) as (_ & _ & H & _).
  rewrite H. reflexivity.
Defined.

Lemma SQL_table_check_witness :
  let q0 := builder.NewQuery in
  let q1 := builder.OrderBy (builder.Table builder.NewQuery "t") ["a"] in
  let answer := fun (_ : builder.DB unit) (_ : unit) (_ : string) (_ : list value) =>
                  (@None unit, @None error) in
  let bound := fun (_ : builder.DB unit) (_ : unit) (v : unit) (_ : string) (_ : list value) =>
                 (v, @None error) in
  builder.table q0 = ""
  /\ snd (builder.SQL q0) = ("", Some builder.no_table)
  /\ builder.returned unit (builder.Exec unit tt unit answer q0 [] [])
     = (None, Some builder.no_table)
  /\ builder.handle_after unit (builder.Exec unit tt unit answer q0 [] []) = []
  /\ builder.table q1 <> ""
  /\ builder.SQL_text q1 = "SELECT * FROM t ORDER BY a".
Proof.
  intros q0 q1 answer bound.
  assert (H0 : builder.table q0 = "") by reflexivity.
  assert (H1 : builder.table q1 <> "") by discriminate.
  destruct (SQL_table_check unit unit unit tt answer bound q0 [] tt tt []) as [A _].
  destruct (SQL_table_check unit unit unit tt answer bound q1 [] tt tt []) as [_ B].
  destruct (A H0) as (A1 & A2 & A3 & _).
  destruct (B H1) as (_ & B2 & _).
  split; [exact H0|]. split; [exact A1|]. split; [exact A3|]. split; [exact A2|].
  split; [exact H1|]. rewrite B2. reflexivity.
Defined.


Lemma HasMany_default_foreign_key_witness :
  let c := HasManyConfig.mk "" "" in
  relations (getSchemaFor (post MySQL)) !! Table (getSchemaFor (comment MySQL))
  = Some (RelHasMany c)
  /\ HasManyConfig.PropertyForeignKey c = ""
  /\ HasManyConfig.PropertyTable c = ""
  /\ HasMany_defaults singular c (post MySQL) (schemaOf (comment MySQL))
     = HasManyConfig.mk "comments" "post_id"
  /\ calls (HasMany singular unit no_rows keep_many (comment MySQL) (post MySQL)) []
     = [db_QueryContext "SELECT * FROM comments WHERE post_id=?" [VInt 7]].
Proof.
  intros c.
  assert (Hr : relations (getSchemaFor (post MySQL)) !! Table (getSchemaFor (comment MySQL))
               = Some (RelHasMany c)) by (vm_compute; reflexivity).
  assert (Hk : HasManyConfig.PropertyForeignKey c = "") by reflexivity.
  assert (Ht : HasManyConfig.PropertyTable c = "") by reflexivity.
  split; [exact Hr|]. split; [exact Hk|]. split; [exact Ht|].
  destruct (HasMany_default_foreign_key singular unit no_rows keep_many
              (comment MySQL) (post MySQL) c [] Hr) as (H1 & H2 & H3 & H4).
  split.
  - pose proof (H4 Hk eq_refl eq_refl) as E1. pose proof (H2 Ht) as E2.
    destruct (HasMany_defaults singular c (post MySQL) (schemaOf (comment MySQL))) as [t k].
    simpl in E1, E2. rewrite E1, E2. reflexivity.
  - rewrite H3; [reflexivity | discriminate].
Defined.

Lemma relation_variant_mismatch_witness :
  variant <$> (relations (getSchemaFor (post MySQL)) !! Table (getSchemaFor (comment MySQL)))
  <> Some rHasOne
  /\ invoke singular unit no_rows keep_one keep_many rHasOne (comment MySQL) (post MySQL) []
     = ([], Returned (Some "wrong config passed for HasOne")).
Proof.
  assert (H : variant <$> (relations (getSchemaFor (post MySQL))
                             !! Table (getSchemaFor (comment MySQL))) <> Some rHasOne)
    by (vm_compute; discriminate).
  split; [exact H|].
  exact (relation_variant_mismatch singular unit no_rows keep_one keep_many
           rHasOne (comment MySQL) (post MySQL) [] H).
Defined.

Lemma BelongsToMany_intermediate_table_witness :
  let c0 := BelongsToManyConfig.mk "" "" "" "" "" in
  let c1 := BelongsToManyConfig.mk "post_categories" "" "" "" "" in
  relations (getSchemaFor (post MySQL)) !! Table (getSchemaFor (tag MySQL))
  = Some (RelBelongsToMany c0)
  /\ BelongsToMany singular unit no_rows keep_many (tag MySQL) (post MySQL) []
     = ([], Returned ([], Some "cannot infer intermediate table yet"))
  /\ relations (getSchemaFor (post MySQL)) !! Table (getSchemaFor (category MySQL))
     = Some (RelBelongsToMany c1)
  /\ calls (BelongsToMany singular unit no_rows keep_many (category MySQL) (post MySQL)) []
     = [db_Query
          "select id,name from categories where id IN (select category_id from post_categories where post_id = ?)"
          [VInt 7]].
Proof.
  intros c0 c1.
  assert (H0 : relations (getSchemaFor (post MySQL)) !! Table (getSchemaFor (tag MySQL))
               = Some (RelBelongsToMany c0)) by (vm_compute; reflexivity).
  assert (H1 : relations (getSchemaFor (post MySQL)) !! Table (getSchemaFor (category MySQL))
               = Some (RelBelongsToMany c1)) by (vm_compute; reflexivity).
  destruct (BelongsToMany_intermediate_table singular unit no_rows keep_many
              (tag MySQL) (post MySQL) c0 [] H0) as [A _].
  destruct (BelongsToMany_intermediate_table singular unit no_rows keep_many
              (category MySQL) (post MySQL) c1 [] H1) as (_ & B & _).
  split; [exact H0|]. split; [apply A; reflexivity|]. split; [exact H1|].
  rewrite B; [reflexivity | discriminate].
Defined.

Lemma BelongsToMany_literal_placeholder_witness :
  let c := BelongsToManyConfig.mk "post_categories" "" "" "" "" in
  let text := "select id,name from categories where id IN (select category_id from post_categories where post_id = ?)" in
  relations (getSchemaFor (post MySQL)) !! Table (getSchemaFor (category MySQL))
  = Some (RelBelongsToMany c)
  /\ BelongsToManyConfig.IntermediateTable c <> ""
  /\ calls (BelongsToMany singular unit no_rows keep_many
              (with_dialect PostgreSQL (category MySQL))
              (with_dialect PostgreSQL (post MySQL))) []
     = [db_Query text [VInt 7]]
  /\ count_char "?" text = 1.
Proof.
  intros c text.
  assert (Hr : relations (getSchemaFor (post MySQL)) !! Table (getSchemaFor (category MySQL))
               = Some (RelBelongsToMany c)) by (vm_compute; reflexivity).
  assert (Hi : BelongsToManyConfig.IntermediateTable c <> "") by discriminate.
  split; [exact Hr|]. split; [exact Hi|].
  destruct (BelongsToMany_literal_placeholder singular unit no_rows keep_many
              PostgreSQL PostgreSQL (category MySQL) (post MySQL) c [] Hr Hi) as [H1 H2].
  split; [rewrite H1; reflexivity|].
  apply H2; try reflexivity.
  split; [reflexivity | repeat constructor].
Defined.
End Witnesses.

(** ** Further facts about package [builder] *)

Section BuilderMore.
Import builder.

Lemma where_each_filters (partss : list (list string)) (q : query) :
  where_each q partss
  = set_filters q (filters q ++ map (fun parts => mkWhere [Join parts " "]) partss).
Proof.
  unfold where_each. revert q. induction partss as [|parts partss IH]; intros q; simpl.
  - rewrite app_nil_r. now destruct q.
  - rewrite IH. unfold Query, Where, set_filters; simpl. now rewrite <- app_assoc.
Qed.

(** X1: every [Where] call on a query adds a clause of its own, and [SQL]
    writes the keyword WHERE once and then the clauses one after the other,
    separated by a space and by nothing else: conditions given in separate
    [Where] calls are not connected by AND or any other word. *)
Theorem where_calls_accumulate (q : query) (partss : list (list string)) :
  table q <> "" -> filters q = [] -> partss <> [] ->
  let q' := where_each q partss in
  filters q' = map (fun parts => mkWhere [Join parts " "]) partss
  /\ SQL_err q' = None
  /\ SQL_text q'
     = Join (["SELECT"; select_String (default default_projection (projected q));
              "FROM " +:+ table q; "WHERE"]
             ++ map (fun parts => Join parts " ") partss
             ++ orderby_sections q ++ groupby_sections q ++ join_sections q) " ".
Proof.
  intros Ht Hf Hp q'. subst q'. rewrite where_each_filters, Hf. simpl app.
  split; [reflexivity|].
  unfold SQL_err, SQL_text. rewrite SQL_sections by exact Ht. cbn [fst snd].
  split; [reflexivity|]. f_equal.
  unfold head_sections, where_sections. simpl filters. simpl projected. simpl table.
  destruct partss as [|p partss]; [congruence|].
  change (orderby_sections (set_filters q ?f)) with (orderby_sections q).
  change (groupby_sections (set_filters q ?f)) with (groupby_sections q).
  change (join_sections (set_filters q ?f)) with (join_sections q).
  set (ps := p :: partss) in *.
  assert (Hw : match map (fun parts => mkWhere [Join parts " "]) ps with
               | [] => []
               | w :: l => "WHERE" :: map where_String (w :: l)
               end = "WHERE" :: map (fun parts => Join parts " ") ps).
  { subst ps. simpl. f_equal. f_equal. rewrite map_map. reflexivity. }
  rewrite Hw. simpl app. rewrite <- !app_assoc. reflexivity.
Qed.

Lemma SQL_text_sections (q : query) :
  table q <> "" -> SQL_text q = Join (head_sections q ++ join_sections q) " ".
Proof. intros H. unfold SQL_text. now rewrite SQL_sections. Qed.

(** X2: [SQL] fails exactly when the table name is empty, and the text it
    returns is empty exactly then; a statement it does return starts with
    the word SELECT and a space. *)
Theorem SQL_fails_iff_no_table (q : query) :
  (SQL_err q = None <-> table q <> "")
  /\ (SQL_err q = Some no_table <-> table q = "")
  /\ (SQL_text q = "" <-> table q = "")
  /\ (table q <> "" -> exists rest, SQL_text q = "SELECT " +:+ rest).
Proof.
  assert (Hs : table q <> "" -> exists rest, SQL_text q = "SELECT " +:+ rest).
  { intros H. rewrite SQL_text_sections by exact H. unfold head_sections.
    eexists. simpl app. rewrite Join_cons2. rewrite <- append_assoc. reflexivity. }
  destruct (String.eqb_spec (table q) "") as [E|E].
  - pose proof (SQL_empty_table q E) as H. unfold SQL_err, SQL_text. rewrite H. simpl.
    repeat split; try congruence; try discriminate.
  - pose proof (SQL_sections q E) as H.
    destruct (Hs E) as [rest Hr].
    unfold SQL_err. rewrite H. cbn [fst snd]. rewrite Hr.
    repeat split; try congruence; try discriminate.
    exists rest. reflexivity.
Qed.

(** X3: the only thing [SQL] changes in its receiver is the projection: a
    missing one becomes the default [*], also when [SQL] fails for want of
    a table, and everything else stays.  Calling [SQL] again on the query
    so left returns the same text and error and changes nothing more. *)
Theorem SQL_receiver (q : query) :
  let q' := fst (SQL q) in
  table q' = table q /\ filters q' = filters q /\ orderBy q' = orderBy q
  /\ groupBy q' = groupBy q /\ joins q' = joins q
  /\ projected q' = Some (default default_projection (projected q))
  /\ SQL q' = (q', snd (SQL q)).
Proof.
  unfold SQL. destruct q as [t [p|] f o g j]; simpl;
    destruct (String.eqb t "") eqn:E; simpl; rewrite ?E; repeat split.
Qed.


Section WrapperMore.
Variables (ctx Result dest : Type) (Background : ctx).
Variable exec_answer : DB ctx -> ctx -> string -> list value -> option Result * option error.
Variable bind_answer : DB ctx -> ctx -> dest -> string -> list value -> dest * option error.

(** X5: on a query with a table each wrapper makes exactly one call to the
    database, with the text [SQL] returns and the arguments it was given,
    and returns what the database answers.  [ExecContext] makes the call
    under the background context whatever context it was given, so it does
    what [Exec] does; [BindContext] makes it under its own context. *)
Theorem wrappers_call_once
        (q : query) (db : DB ctx) (c : ctx) (v : dest) (args : list value) :
  table q <> "" ->
  handle_after ctx (Exec ctx Background Result exec_answer q db args)
  = db ++ [call_exec Background (SQL_text q) args]
  /\ returned ctx (Exec ctx Background Result exec_answer q db args)
     = exec_answer db Background (SQL_text q) args
  /\ ExecContext ctx Background Result exec_answer q c db args
     = Exec ctx Background Result exec_answer q db args
  /\ handle_after ctx (Bind ctx Background dest bind_answer q db v args)
     = db ++ [call_bind Background (SQL_text q) args]
  /\ returned ctx (Bind ctx Background dest bind_answer q db v args)
     = bind_answer db Background v (SQL_text q) args
  /\ handle_after ctx (BindContext ctx dest bind_answer q c db v args)
     = db ++ [call_bind c (SQL_text q) args]
  /\ returned ctx (BindContext ctx dest bind_answer q c db v args)
     = bind_answer db c v (SQL_text q) args.
Proof.
  intros H. pose proof (SQL_sections q H) as E.
  unfold handle_after, returned, Exec, ExecContext, Bind, BindContext, SQL_text.
  destruct (SQL q) as [q1 [s e]]. simpl in E. injection E as -> ->.
  repeat split.
Qed.
End WrapperMore.
End BuilderMore.

(** ** Further facts about package [orm] *)

Section OrmMore.
Import querybuilder orm.

(** X6: [getDialect] knows the drivers [mysql], [sqlite], [sqlite3] and
    [postgres] and no other: for these it returns a dialect and no error -
    the same one for [sqlite] and [sqlite3] - and for every other name,
    the same names in capitals included, no dialect and the error. *)
Theorem getDialect_of_driver_known (driver : string) :
  let known := driver = "mysql" \/ driver = "sqlite" \/ driver = "sqlite3"
               \/ driver = "postgres" in
  (known <-> exists d, getDialect_of_driver driver = (Some d, None))
  /\ (~ known <->
      getDialect_of_driver driver
      = (None, Some (Errorf "err no dialect matched with driver")))
  /\ getDialect_of_driver "sqlite" = getDialect_of_driver "sqlite3"
  /\ getDialect_of_driver "MySQL" = (None, Some (Errorf "err no dialect matched with driver")).
Proof.
  intros known. subst known. unfold getDialect_of_driver.
  destruct (String.eqb_spec driver "mysql") as [->|H1];
    [|destruct (String.eqb_spec driver "sqlite") as [->|H2];
      [|destruct (String.eqb_spec driver "sqlite3") as [->|H3];
        [|destruct (String.eqb_spec driver "postgres") as [->|H4]]]];
    simpl; repeat split; try reflexivity; intros; try discriminate;
    try (eexists; reflexivity); try tauto;
    try (match goal with H : ex _ |- _ => destruct H; discriminate end).
Qed.

(** *** The table check of [InsertAll] *)


Section Crud.
Variable exec_answer : DB -> string -> list value -> sqlResult * option error.



(** X8: [Insert] makes exactly one Exec call, with the statement and the
    arguments it built, whatever the database answers.  When the database
    reports an error, or the result has no last insert id, that error is
    returned as it is and the entity is left untouched; only when both
    succeed is the id written into the entity and no error returned. *)
Theorem Insert_outcomes (obj : Entity) (db : DB) :
  let q := fst (Insert_stmt obj) in
  let args := snd (Insert_stmt obj) in
  let answer := exec_answer db q args in
  calls (Insert exec_answer obj) db = db ++ [db_Exec q args]
  /\ (forall e, snd answer = Some e ->
      result (Insert exec_answer obj) db = Returned (obj, Some e))
  /\ (forall e, snd answer = None -> snd (LastInsertId (fst answer)) = Some e ->
      result (Insert exec_answer obj) db = Returned (obj, Some e))
  /\ (snd answer = None -> snd (LastInsertId (fst answer)) = None ->
      result (Insert exec_answer obj) db
      = Returned (genericSetPkValue obj (fst (LastInsertId (fst answer))), None)).
Proof.
  intros q args answer. subst q args answer.
  unfold calls, result, Insert, bind, dbExec, ret.
  destruct (Insert_stmt obj) as [q args]. simpl fst. simpl snd.
  destruct (exec_answer db q args) as [res [e|]]; simpl.
  - repeat split; intros; congruence.
  - destruct (LastInsertId res) as [id [e|]]; simpl; repeat split; intros; congruence.
Qed.

(** X9: [Delete], and [Update] of an entity that has a value for each of
    its fields, make exactly one Exec call, with the statement and the
    arguments they built, and return the error of the database - or its
    absence - unchanged. *)
Theorem Update_Delete_pass_error (obj : Entity) (db : DB) :
  well_formed obj ->
  (exists q args,
     Update_stmt obj = Returned (q, args)
     /\ Update exec_answer obj db
        = (db ++ [db_Exec q args], Returned (snd (exec_answer db q args))))
  /\ Delete exec_answer obj db
     = (db ++ [db_Exec (fst (Delete_stmt obj)) (snd (Delete_stmt obj))],
        Returned (snd (exec_answer db (fst (Delete_stmt obj)) (snd (Delete_stmt obj))))).
Proof.
  intros Hwf. split.
  - unfold Update, Update_stmt. rewrite (Update_query_eq obj Hwf). simpl run_bind.
    eexists _, _. split; reflexivity.
  - unfold Delete. destruct (Delete_stmt obj) as [q args]. reflexivity.
Qed.
End Crud.

Lemma toMap_loop_short (cols : list string) (vs : list value) (i : nat) :
  i <= length vs -> length vs < i + length cols ->
  toMap_loop i cols vs = Panicked "index out of range".
Proof.
  revert i. induction cols as [|c cols IH]; intros i Hi H; simpl in H; [lia|].
  simpl. unfold index. destruct (vs !! i) as [v|] eqn:E; [|reflexivity].
  apply lookup_lt_Some in E. simpl. rewrite IH by lia. reflexivity.
Qed.

(** X10: the loop of [toMap] pairs the columns with the values at the same
    positions and ignores the values beyond the last column; with fewer
    values than columns it runs out of range and panics.  For an entity
    that has a value for each of its fields [toMap] returns the columns, in
    order, each with its value. *)
Theorem toMap_bounds (cols : list string) (vs : list value) (obj : Entity) (withPK : bool) :
  (length cols <= length vs -> toMap_loop 0 cols vs = Returned (zip_with mkKV cols vs))
  /\ (length vs < length cols -> toMap_loop 0 cols vs = Panicked "index out of range")
  /\ (well_formed obj ->
      exists kvs, toMap obj withPK = Returned kvs
                  /\ map Key kvs = Columns (getSchemaFor obj) withPK
                  /\ map Value kvs = genericValuesOf obj withPK).
Proof.
  split; [|split].
  - intros H. rewrite toMap_loop_zip by (simpl; lia). now rewrite drop_0.
  - intros H. apply toMap_loop_short; lia.
  - intros Hwf. rewrite (toMap_zip obj withPK Hwf). eexists. split; [reflexivity|].
    pose proof (values_columns_length obj withPK Hwf) as Hl.
    split; [now apply map_Key_zip | now apply map_Value_zip].
Qed.

(** *** The relation resolver *)


Section ResolverMore.
Variable Singular : string -> string.
Variable Rows : Type.
Variable query_answer : DB -> string -> list value -> Rows * option error.
Variable bind_one : schema -> Rows -> Entity -> Entity * option error.
Variable bind_many : schema -> Rows -> list Entity -> list Entity * option error.

Lemma HasMany_defaults_explicit (c : HasManyConfig.t) (owner : Entity) (s : schema) :
  let c' := HasMany_defaults Singular c owner s in
  (HasManyConfig.PropertyTable c <> "" ->
     HasManyConfig.PropertyTable c' = HasManyConfig.PropertyTable c)
  /\ (HasManyConfig.PropertyForeignKey c <> "" ->
      HasManyConfig.PropertyForeignKey c' = HasManyConfig.PropertyForeignKey c).
Proof.
  unfold HasMany_defaults. destruct c as [t k]. simpl.
  destruct (String.eqb_spec t ""); simpl; destruct (String.eqb_spec k ""); simpl;
    split; intros; congruence.
Qed.

Lemma HasOne_defaults_explicit (c : HasOneConfig.t) (owner : Entity) (s : schema) :
  let c' := HasOne_defaults Singular c owner s in
  (HasOneConfig.PropertyTable c <> "" ->
     HasOneConfig.PropertyTable c' = HasOneConfig.PropertyTable c)
  /\ (HasOneConfig.PropertyForeignKey c <> "" ->
      HasOneConfig.PropertyForeignKey c' = HasOneConfig.PropertyForeignKey c).
Proof.
  unfold HasOne_defaults. destruct c as [t k]. simpl.
  destruct (String.eqb_spec t ""); simpl; destruct (String.eqb_spec k ""); simpl;
    split; intros; congruence.
Qed.

Lemma BelongsTo_defaults_explicit (c : BelongsToConfig.t) (s : schema) :
  let c' := BelongsTo_defaults Singular c s in
  (BelongsToConfig.OwnerTable c <> "" ->
     BelongsToConfig.OwnerTable c' = BelongsToConfig.OwnerTable c)
  /\ (BelongsToConfig.LocalForeignKey c <> "" ->
      BelongsToConfig.LocalForeignKey c' = BelongsToConfig.LocalForeignKey c)
  /\ (BelongsToConfig.ForeignColumnName c <> "" ->
      BelongsToConfig.ForeignColumnName c' = BelongsToConfig.ForeignColumnName c).
Proof.
  unfold BelongsTo_defaults. destruct c as [t k f]. simpl.
  destruct (String.eqb_spec t ""); simpl; destruct (String.eqb_spec k ""); simpl;
    destruct (String.eqb_spec f ""); simpl; repeat split; intros; congruence.
Qed.

Lemma BelongsToMany_defaults_explicit (c : BelongsToManyConfig.t) (owner property : Entity) :
  let c' := BelongsToMany_defaults_intermediate Singular
              (BelongsToMany_defaults_foreign c owner) owner property in
  BelongsToManyConfig.IntermediateTable c' = BelongsToManyConfig.IntermediateTable c
  /\ (BelongsToManyConfig.IntermediatePropertyID c <> "" ->
      BelongsToManyConfig.IntermediatePropertyID c' = BelongsToManyConfig.IntermediatePropertyID c)
  /\ (BelongsToManyConfig.IntermediateOwnerID c <> "" ->
      BelongsToManyConfig.IntermediateOwnerID c' = BelongsToManyConfig.IntermediateOwnerID c)
  /\ (BelongsToManyConfig.ForeignTable c <> "" ->
      BelongsToManyConfig.ForeignTable c' = BelongsToManyConfig.ForeignTable c)
  /\ (BelongsToManyConfig.ForeignLookupColumn c <> "" ->
      BelongsToManyConfig.ForeignLookupColumn c' = BelongsToManyConfig.ForeignLookupColumn c).
Proof.
  unfold BelongsToMany_defaults_intermediate, BelongsToMany_defaults_foreign.
  destruct c as [it ip io ft fl]. simpl.
  destruct (String.eqb_spec fl ""); simpl;
    destruct (String.eqb_spec ft ""); simpl;
    destruct (String.eqb_spec ip ""); simpl;
    destruct (String.eqb_spec io ""); simpl;
    repeat split; intros; congruence.
Qed.

(** X11: the defaults fill empty fields only: a field of a relation config
    that was set keeps its value - for all fields of the four kinds of
    config - and the intermediate table of a BelongsToMany config is never
    touched. *)
Theorem relation_defaults_keep_explicit
        (hm : HasManyConfig.t) (ho : HasOneConfig.t) (bt : BelongsToConfig.t)
        (btm : BelongsToManyConfig.t) (owner property : Entity) (s : schema) :
  let hm' := HasMany_defaults Singular hm owner s in
  let ho' := HasOne_defaults Singular ho owner s in
  let bt' := BelongsTo_defaults Singular bt s in
  let btm' := BelongsToMany_defaults_intermediate Singular
                (BelongsToMany_defaults_foreign btm owner) owner property in
  (HasManyConfig.PropertyTable hm <> "" ->
     HasManyConfig.PropertyTable hm' = HasManyConfig.PropertyTable hm)
  /\ (HasManyConfig.PropertyForeignKey hm <> "" ->
      HasManyConfig.PropertyForeignKey hm' = HasManyConfig.PropertyForeignKey hm)
  /\ (HasOneConfig.PropertyTable ho <> "" ->
      HasOneConfig.PropertyTable ho' = HasOneConfig.PropertyTable ho)
  /\ (HasOneConfig.PropertyForeignKey ho <> "" ->
      HasOneConfig.PropertyForeignKey ho' = HasOneConfig.PropertyForeignKey ho)
  /\ (BelongsToConfig.OwnerTable bt <> "" ->
      BelongsToConfig.OwnerTable bt' = BelongsToConfig.OwnerTable bt)
  /\ (BelongsToConfig.LocalForeignKey bt <> "" ->
      BelongsToConfig.LocalForeignKey bt' = BelongsToConfig.LocalForeignKey bt)
  /\ (BelongsToConfig.ForeignColumnName bt <> "" ->
      BelongsToConfig.ForeignColumnName bt' = BelongsToConfig.ForeignColumnName bt)
  /\ BelongsToManyConfig.IntermediateTable btm' = BelongsToManyConfig.IntermediateTable btm
  /\ (BelongsToManyConfig.IntermediatePropertyID btm <> "" ->
      BelongsToManyConfig.IntermediatePropertyID btm'
      = BelongsToManyConfig.IntermediatePropertyID btm)
  /\ (BelongsToManyConfig.IntermediateOwnerID btm <> "" ->
      BelongsToManyConfig.IntermediateOwnerID btm'
      = BelongsToManyConfig.IntermediateOwnerID btm)
  /\ (BelongsToManyConfig.ForeignTable btm <> "" ->
      BelongsToManyConfig.ForeignTable btm' = BelongsToManyConfig.ForeignTable btm)
  /\ (BelongsToManyConfig.ForeignLookupColumn btm <> "" ->
      BelongsToManyConfig.ForeignLookupColumn btm'
      = BelongsToManyConfig.ForeignLookupColumn btm).
Proof.
  cbv zeta.
  pose proof (HasMany_defaults_explicit hm owner s) as [A1 A2].
  pose proof (HasOne_defaults_explicit ho owner s) as [B1 B2].
  pose proof (BelongsTo_defaults_explicit bt s) as (C1 & C2 & C3).
  pose proof (BelongsToMany_defaults_explicit btm owner property) as (D0 & D1 & D2 & D3 & D4).
  repeat split; assumption.
Qed.


(** *** The calls of the relation functions *)

Lemma calls_HasMany (OUT owner : Entity) (db : DB) :
  calls (HasMany Singular Rows query_answer bind_many OUT owner) db
  = match relations (getSchemaFor owner) !! Table (getSchemaFor OUT) with
    | Some (RelHasMany c) =>
        let c' := HasMany_defaults Singular c owner (schemaOf OUT) in
        let qa := Select.Build
                    (Select.WithArgs
                       (Select.Where
                          (Select.From Select.zero (HasManyConfig.PropertyTable c'))
                          (Equal (HasManyConfig.PropertyForeignKey c')
                                 (first_placeholder (getDialect (getSchemaFor owner)))))
                       [genericGetPKValue owner]) in
        if String.eqb (fst qa) "" then db else db ++ [db_QueryContext (fst qa) (snd qa)]
    | _ => db
    end.
Proof.
  unfold HasMany.
  destruct (relations (getSchemaFor owner) !! Table (getSchemaFor OUT)) as [[c|c|c|c]|];
    try reflexivity.
  cbv zeta. destruct (Select.Build _) as [q args]. simpl fst. simpl snd.
  destruct (String.eqb q ""); [reflexivity|].
  pose proof (calls_bindContext Rows query_answer bind_many OUT [] q args db) as Hc.
  unfold calls, bind in *.
  destruct (bindContext _ _ _ _ _ _ _ db) as [db' [[out [e|]]|r]]; simpl in Hc |- *;
    subst db'; reflexivity.
Qed.

Lemma calls_HasOne (PROPERTY owner : Entity) (db : DB) :
  calls (HasOne Singular Rows query_answer bind_one PROPERTY owner) db
  = match relations (getSchemaFor owner) !! Table (getSchemaFor PROPERTY) with
    | Some (RelHasOne c) =>
        let c' := HasOne_defaults Singular c owner (getSchemaFor PROPERTY) in
        let qa := Select.Build
                    (Select.WithArgs
                       (Select.Where
                          (Select.From Select.zero (HasOneConfig.PropertyTable c'))
                          (Equal (HasOneConfig.PropertyForeignKey c')
                                 (first_placeholder (dialect (getSchemaFor PROPERTY)))))
                       [genericGetPKValue owner]) in
        if String.eqb (fst qa) "" then db else db ++ [db_QueryContext (fst qa) (snd qa)]
    | _ => db
    end.
Proof.
  unfold HasOne.
  destruct (relations (getSchemaFor owner) !! Table (getSchemaFor PROPERTY)) as [[c|c|c|c]|];
    try reflexivity.
  cbv zeta. destruct (Select.Build _) as [q args]. simpl fst. simpl snd.
  destruct (String.eqb q ""); [reflexivity|].
  apply calls_bindContext.
Qed.

Lemma calls_BelongsTo (OWNER property : Entity) (db : DB) :
  calls (BelongsTo Singular Rows query_answer bind_one OWNER property) db
  = match relations (getSchemaFor property) !! Table (getSchemaFor OWNER) with
    | Some (RelBelongsTo c) =>
        let c' := BelongsTo_defaults Singular c (getSchemaFor OWNER) in
        let idx := ownerID_index 0 (fields (getSchemaFor OWNER))
                                 (BelongsToConfig.LocalForeignKey c') 0 in
        match genericValuesOf property true !! idx with
        | Some ownerID =>
            let qa := Select.Build
                        (Select.WithArgs
                           (Select.Where
                              (Select.From Select.zero (BelongsToConfig.OwnerTable c'))
                              (Equal (BelongsToConfig.ForeignColumnName c')
                                     (first_placeholder (getDialect (getSchemaFor OWNER)))))
                           [ownerID]) in
            db ++ [db_QueryContext (fst qa) (snd qa)]
        | None => db
        end
    | _ => db
    end.
Proof.
  unfold BelongsTo.
  destruct (relations (getSchemaFor property) !! Table (getSchemaFor OWNER)) as [[c|c|c|c]|];
    try reflexivity.
  cbv zeta. unfold calls, bind, lift, index.
  destruct (genericValuesOf property true !! _) as [v|]; [|reflexivity].
  destruct (Select.Build _) as [q args]. simpl fst. simpl snd.
  apply (calls_bindContext Rows query_answer bind_one OWNER OWNER q args db).
Qed.

Lemma calls_BelongsToMany (OWNER property : Entity) (db : DB) :
  calls (BelongsToMany Singular Rows query_answer bind_many OWNER property) db
  = match relations (getSchemaFor property) !! Table (getSchemaFor OWNER) with
    | Some (RelBelongsToMany c) =>
        if String.eqb (BelongsToManyConfig.IntermediateTable c) "" then db
        else db ++ [db_Query
                      (BelongsToMany_text
                         (BelongsToMany_defaults_intermediate Singular
                            (BelongsToMany_defaults_foreign c OWNER) OWNER property) OWNER)
                      [genericGetPKValue property]]
    | _ => db
    end.
Proof.
  destruct (relations (getSchemaFor property) !! Table (getSchemaFor OWNER))
    as [[c|c|c|c]|] eqn:E;
    try (unfold BelongsToMany; rewrite E; reflexivity).
  destruct (String.eqb_spec (BelongsToManyConfig.IntermediateTable c) "") as [Hi|Hi].
  - unfold BelongsToMany. rewrite E, BelongsToMany_IntermediateTable_foreign, Hi. reflexivity.
  - apply (BelongsToMany_calls Singular Rows query_answer bind_many OWNER property c db E Hi).
Qed.

Lemma calls_Find (T : Entity) (id : value) (db : DB) :
  calls (Find Rows query_answer bind_one T id) db
  = db ++ [db_QueryContext (fst (Find_stmt T id)) (snd (Find_stmt T id))].
Proof.
  unfold Find. destruct (Find_stmt T id) as [q args]. apply calls_bindContext.
Qed.

(** X13: [Find] and the four relation functions only read: whatever the
    entities and the configs, each of them makes no call to the database or
    one call, and that call is a query - never an Exec. *)
Theorem resolver_reads_at_most_once (T e : Entity) (id : value) (db : DB) :
  let at_most_one_read (after : DB) :=
    after = db \/ exists c, reads c = true /\ after = db ++ [c] in
  at_most_one_read (calls (Find Rows query_answer bind_one T id) db)
  /\ at_most_one_read (calls (HasMany Singular Rows query_answer bind_many T e) db)
  /\ at_most_one_read (calls (HasOne Singular Rows query_answer bind_one T e) db)
  /\ at_most_one_read (calls (BelongsTo Singular Rows query_answer bind_one T e) db)
  /\ at_most_one_read (calls (BelongsToMany Singular Rows query_answer bind_many T e) db).
Proof.
  intros P. subst P. cbv beta.
  rewrite calls_Find, calls_HasMany, calls_HasOne, calls_BelongsTo, calls_BelongsToMany.
  repeat split.
  - right. eexists. split; [|reflexivity]. reflexivity.
  - destruct (relations _ !! _) as [[c|c|c|c]|]; auto. cbv zeta.
    destruct (String.eqb _ ""); auto. right. eexists. split; [|reflexivity]. reflexivity.
  - destruct (relations _ !! _) as [[c|c|c|c]|]; auto. cbv zeta.
    destruct (String.eqb _ ""); auto. right. eexists. split; [|reflexivity]. reflexivity.
  - destruct (relations _ !! _) as [[c|c|c|c]|]; auto. cbv zeta.
    destruct (_ !! _); auto. right. eexists. split; [|reflexivity]. reflexivity.
  - destruct (relations _ !! _) as [[c|c|c|c]|]; auto.
    destruct (String.eqb _ ""); auto. right. eexists. split; [|reflexivity]. reflexivity.
Qed.


(** *** The owner id of [BelongsTo] *)

Lemma ownerID_index_none (fs : list field) (key : string) (i acc : nat) :
  Forall (fun f => Name f <> key) fs -> ownerID_index i fs key acc = acc.
Proof.
  intros H. revert i. induction H as [|f fs Hf _ IH]; intros i; [reflexivity|].
  simpl. apply String.eqb_neq in Hf. rewrite Hf. apply IH.
Qed.

Lemma ownerID_index_last (pre post : list field) (f : field) (key : string) (i acc : nat) :
  Name f = key -> Forall (fun f => Name f <> key) post ->
  ownerID_index i (pre ++ f :: post) key acc = i + length pre.
Proof.
  intros Hf Hpost. revert i acc. induction pre as [|p pre IH]; intros i acc; simpl.
  - apply String.eqb_eq in Hf. rewrite Hf.
    rewrite (ownerID_index_none post key (S i) i Hpost). lia.
  - rewrite IH. lia.
Qed.

(** X15: the loop of [BelongsTo] that looks for the local foreign key
    returns the position of the last field of that name, and 0 when no
    field has the name - the answer it also gives for a match at the first
    position. *)
Theorem ownerID_index_position (fs pre post : list field) (f : field) (key : string) :
  (Forall (fun f => Name f <> key) fs -> ownerID_index 0 fs key 0 = 0)
  /\ (Name f = key -> Forall (fun f => Name f <> key) post ->
      ownerID_index 0 (pre ++ f :: post) key 0 = length pre
      /\ (pre ++ f :: post) !! ownerID_index 0 (pre ++ f :: post) key 0 = Some f).
Proof.
  split.
  - apply ownerID_index_none.
  - intros Hf Hpost. rewrite (ownerID_index_last pre post f key 0 0 Hf Hpost). simpl.
    split; [reflexivity|]. apply list_lookup_middle. reflexivity.
Qed.

(** X16: [BelongsTo] looks for the local foreign key among the fields of
    the owner type and reads the property entity's value at the position it
    finds.  When no field of the owner has that name the position is 0, so
    the owner is looked up by the first value of the property entity; when
    the property entity has no value at the position, [BelongsTo] panics
    before any call to the database. *)
Theorem BelongsTo_owner_id
        (OWNER property : Entity) (c : BelongsToConfig.t) (db : DB) :
  relations (getSchemaFor property) !! Table (getSchemaFor OWNER) = Some (RelBelongsTo c) ->
  let c' := BelongsTo_defaults Singular c (getSchemaFor OWNER) in
  let idx := ownerID_index 0 (fields (getSchemaFor OWNER))
                           (BelongsToConfig.LocalForeignKey c') 0 in
  (Forall (fun f => Name f <> BelongsToConfig.LocalForeignKey c') (fields (getSchemaFor OWNER)) ->
     idx = 0)
  /\ (forall v, genericValuesOf property true !! idx = Some v ->
      BelongsToConfig.OwnerTable c' <> "" ->
      calls (BelongsTo Singular Rows query_answer bind_one OWNER property) db
      = db ++ [db_QueryContext
                 ("SELECT * FROM " +:+ BelongsToConfig.OwnerTable c' +:+ " WHERE "
                    +:+ BelongsToConfig.ForeignColumnName c' +:+ "="
                    +:+ first_placeholder (getDialect (getSchemaFor OWNER)))
                 [v]])
  /\ (genericValuesOf property true !! idx = None ->
      BelongsTo Singular Rows query_answer bind_one OWNER property db
      = (db, Panicked "index out of range")).
Proof.
  intros Hrel c' idx. split; [|split].
  - apply ownerID_index_none.
  - intros v Hv Ht. rewrite calls_BelongsTo, Hrel. cbv zeta. fold c'. fold idx.
    rewrite Hv. rewrite (Select_Build_where _ _ _ Ht). reflexivity.
  - intros Hv. unfold BelongsTo. rewrite Hrel. fold c'. fold idx.
    unfold bind, lift, index. rewrite Hv. reflexivity.
Qed.
End ResolverMore.

(** *** Raw statements and [Save] *)

Section EntryFacts.
Variable Rows : Type.
Variable exec_answer : DB -> string -> list value -> sqlResult * option error.
Variable query_answer : DB -> string -> list value -> Rows * option error.
Variable RowsAffected : sqlResult -> Z * option error.
Variable bind_by_value : schema -> Rows -> list Entity -> run (option error).

Lemma query_outcome_empty (OUTPUT : Entity) (r : Rows * option error) (db db' : DB)
      (out : list Entity) (err : option error) :
  query_outcome Rows bind_by_value OUTPUT r db = (db', Returned (out, err)) ->
  out = [] /\ db' = db.
Proof.
  unfold query_outcome, bind, lift, ret. destruct r as [rows [e|]].
  - intros H. injection H as <- <- _. auto.
  - destruct (bind_by_value _ rows []) as [[e|]|p]; intros H; try discriminate;
      injection H as <- <- _; auto.
Qed.

(** X17: [QueryRaw] makes one Query call with the text and the arguments
    it was given, and [Query] one with the text its statement builds and
    the statement's argument slice as a single argument.  Both hand the
    binder their result slice by value, so whenever they return, with or
    without an error, the slice they return is empty, whatever rows the
    database sent. *)
Theorem Query_returns_no_rows
        (OUTPUT : Entity) (stmt : Select.t) (q : string) (args : list value) (db : DB) :
  calls (QueryRaw Rows query_answer bind_by_value OUTPUT q args) db = db ++ [db_Query q args]
  /\ calls (Query Rows query_answer bind_by_value OUTPUT stmt) db
     = db ++ [db_Query (fst (Select.Build stmt)) [VSlice (snd (Select.Build stmt))]]
  /\ (forall out err,
        result (QueryRaw Rows query_answer bind_by_value OUTPUT q args) db
        = Returned (out, err) -> out = [])
  /\ (forall out err,
        result (Query Rows query_answer bind_by_value OUTPUT stmt) db
        = Returned (out, err) -> out = []).
Proof.
  unfold calls, result, Query, QueryRaw.
  destruct (Select.Build stmt) as [q' args']. simpl fst. simpl snd.
  unfold bind at 1 2 3 4. unfold dbQuery.
  set (r := query_answer db q args). set (r' := query_answer db q' [VSlice args']).
  destruct (query_outcome Rows bind_by_value OUTPUT r (db ++ [db_Query q args]))
    as [d1 o1] eqn:E1.
  destruct (query_outcome Rows bind_by_value OUTPUT r' (db ++ [db_Query q' [VSlice args']]))
    as [d2 o2] eqn:E2.
  simpl.
  assert (H1 : d1 = db ++ [db_Query q args]).
  { revert E1. unfold query_outcome, bind, lift, ret. destruct r as [rows [e|]].
    - intros H. now injection H as <- _.
    - destruct (bind_by_value _ rows []) as [[e|]|p]; intros H; now injection H as <- _. }
  assert (H2 : d2 = db ++ [db_Query q' [VSlice args']]).
  { revert E2. unfold query_outcome, bind, lift, ret. destruct r' as [rows [e|]].
    - intros H. now injection H as <- _.
    - destruct (bind_by_value _ rows []) as [[e|]|p]; intros H; now injection H as <- _. }
  split; [exact H1|]. split; [exact H2|]. split.
  - intros out err ->. now apply query_outcome_empty in E1.
  - intros out err ->. now apply query_outcome_empty in E2.
Qed.


(** X19: [Save] looks at the primary-key value of the entity.  When the
    value is zero (the number 0, the empty string) it does what [Insert]
    does; when it is not, it does what [Update] does and returns the entity
    as it was; when the entity has no primary-key value at all, it panics
    before any call to the database. *)
Theorem Save_inserts_or_updates (obj : Entity) (db : DB) :
  (IsZero (genericGetPKValue obj) = Returned true ->
     Save exec_answer obj db = Insert exec_answer obj db)
  /\ (IsZero (genericGetPKValue obj) = Returned false ->
      calls (Save exec_answer obj) db = calls (Update exec_answer obj) db
      /\ forall err, result (Update exec_answer obj) db = Returned err ->
                     result (Save exec_answer obj) db = Returned (obj, err))
  /\ (genericGetPKValue obj = VNil ->
      exists reason, Save exec_answer obj db = (db, Panicked reason)).
Proof.
  unfold Save, calls, result. split; [|split].
  - intros H. unfold bind at 1. unfold lift. rewrite H. reflexivity.
  - intros H. unfold bind at 1 3. unfold lift. rewrite H.
    unfold bind. destruct (Update exec_answer obj db) as [db' [e|p]]; simpl.
    + split; [reflexivity|]. intros err Hr. injection Hr as <-. reflexivity.
    + split; [reflexivity|]. intros err Hr. discriminate.
  - intros H. rewrite H. simpl. eexists. reflexivity.
Qed.
End EntryFacts.
End OrmMore.

(** X21: the single-row statements keep the invariant of markers and
    arguments: under a dialect whose placeholder character is [?] or [$],
    and for a schema none of whose names contains that character, the
    statements that [Insert], [Update], [Delete] and [Find] build have as
    many placeholder markers as arguments ([Insert] and [Update] for an
    entity that has a value for each of its fields). *)
Theorem single_statements_keep_markers (obj : orm.Entity) (id : value) (c : ascii) :
  orm.well_formed obj ->
  orm.standard (orm.getDialect (orm.getSchemaFor obj)) c ->
  orm.clean c (orm.getSchemaFor obj) ->
  let d := orm.getDialect (orm.getSchemaFor obj) in
  orm.markers d (fst (orm.Insert_stmt obj)) = length (snd (orm.Insert_stmt obj))
  /\ (exists q args, orm.Update_stmt obj = orm.Returned (q, args)
                     /\ orm.markers d q = length args)
  /\ orm.markers d (fst (orm.Delete_stmt obj)) = length (snd (orm.Delete_stmt obj))
  /\ orm.markers d (fst (orm.Find_stmt obj id)) = length (snd (orm.Find_stmt obj id)).
Proof.
  intros Hwf Hd Hcl d. subst d.
  split; [now apply Insert_markers with (c := c)|].
  split; [now apply Update_markers with (c := c)|].
  split; [now apply Delete_markers with (c := c)|].
  now apply Find_markers with (c := c).
Qed.

(** ** The further theorems at the sample entities *)

Section MoreWitnesses.
Import querybuilder orm sample sample_more.

Lemma where_calls_accumulate_witness :
  let q := builder.Table builder.NewQuery "t" in
  let partss := [["a = ?"]; ["b"; "="; "?"]] in
  builder.table q <> "" /\ builder.filters q = [] /\ partss <> []
  /\ builder.SQL_text (builder.where_each q partss) = "SELECT * FROM t WHERE a = ? b = ?".
Proof.
  intros q partss.
  assert (Ht : builder.table q <> "") by discriminate.
  assert (Hf : builder.filters q = []) by reflexivity.
  assert (Hp : partss <> []) by discriminate.
  split; [exact Ht|]. split; [exact Hf|]. split; [exact Hp|].
  destruct (where_calls_accumulate q partss Ht Hf Hp) as (_ & _ & H).
  rewrite H. reflexivity.
Defined.

Lemma SQL_fails_iff_no_table_witness :
  let q := builder.Table builder.NewQuery "t" in
  builder.table q <> "" /\ exists rest, builder.SQL_text q = "SELECT " +:+ rest.
Proof.
  intros q. assert (Ht : builder.table q <> "") by discriminate.
  split; [exact Ht|].
  destruct (SQL_fails_iff_no_table q) as (_ & _ & _ & H). exact (H Ht).
Defined.

Lemma wrappers_call_once_witness :
  let q := builder.Table builder.NewQuery "t" in
  let answer := fun (_ : builder.DB bool) (_ : bool) (_ : string) (_ : list value) =>
                  (@None unit, @None error) in
  let bound := fun (_ : builder.DB bool) (_ : bool) (v : unit) (_ : string) (_ : list value) =>
                 (v, @None error) in
  builder.table q <> ""
  /\ builder.handle_after bool (builder.ExecContext bool false unit answer q true [] [VInt 1])
     = [builder.call_exec false "SELECT * FROM t" [VInt 1]]
  /\ builder.handle_after bool (builder.BindContext bool unit bound q true [] tt [VInt 1])
     = [builder.call_bind true "SELECT * FROM t" [VInt 1]].
Proof.
  intros q answer bound. assert (Ht : builder.table q <> "") by discriminate.
  split; [exact Ht|].
  destruct (wrappers_call_once bool unit unit false answer bound q [] true tt [VInt 1] Ht)
    as (H1 & _ & H3 & _ & _ & H6 & _).
  split; [rewrite H3, H1; reflexivity | rewrite H6; reflexivity].
Defined.

Lemma getDialect_of_driver_known_witness :
  "postgres" = "postgres"
  /\ exists d, getDialect_of_driver "postgres" = (Some d, None).
Proof.
  split; [reflexivity|].
  destruct (getDialect_of_driver_known "postgres") as ([H _] & _).
  apply H. right. right. right. reflexivity.
Defined.


Lemma Insert_outcomes_witness :
  snd (refused [] (fst (Insert_stmt (alice MySQL))) (snd (Insert_stmt (alice MySQL))))
  = Some "database is closed"
  /\ result (Insert refused (alice MySQL)) []
     = Returned (alice MySQL, Some "database is closed")
  /\ result (Insert inserted (newcomer MySQL)) []
     = Returned (mkEntity (users MySQL) [VInt 1; VStr "carol"; VStr "carol@example.org"], None).
Proof.
  assert (H0 : snd (refused [] (fst (Insert_stmt (alice MySQL)))
                       (snd (Insert_stmt (alice MySQL)))) = Some "database is closed")
    by reflexivity.
  split; [exact H0|].
  destruct (Insert_outcomes refused (alice MySQL) []) as (_ & H & _).
  destruct (Insert_outcomes inserted (newcomer MySQL) []) as (_ & _ & _ & H').
  split; [exact (H _ H0) | rewrite H' by reflexivity; reflexivity].
Defined.

Lemma Update_Delete_pass_error_witness :
  well_formed (alice MySQL)
  /\ Update refused (alice MySQL) []
     = ([db_Exec "UPDATE users SET name=?,email=? WHERE id=?"
                 [VStr "alice"; VStr "alice@example.org"; VInt 1]],
        Returned (Some "database is closed"))
  /\ Delete refused (alice MySQL) []
     = ([db_Exec "DELETE FROM users WHERE id=?" [VInt 1]],
        Returned (Some "database is closed")).
Proof.
  assert (Hw : well_formed (alice MySQL)) by reflexivity.
  split; [exact Hw|].
  destruct (Update_Delete_pass_error refused (alice MySQL) [] Hw) as [(q & args & Hs & Hu) Hd].
  split; [|rewrite Hd; reflexivity].
  rewrite Hu. vm_compute in Hs. injection Hs as <- <-. reflexivity.
Defined.

Lemma toMap_bounds_witness :
  length ["name"; "email"] <= length [VStr "a"; VStr "b"; VStr "c"]
  /\ toMap_loop 0 ["name"; "email"] [VStr "a"; VStr "b"; VStr "c"]
     = Returned [mkKV "name" (VStr "a"); mkKV "email" (VStr "b")]
  /\ length [VStr "a"] < length ["name"; "email"]
  /\ toMap_loop 0 ["name"; "email"] [VStr "a"] = Panicked "index out of range"
  /\ well_formed (alice MySQL)
  /\ toMap (alice MySQL) false
     = Returned [mkKV "name" (VStr "alice"); mkKV "email" (VStr "alice@example.org")].
Proof.
  assert (H1 : length ["name"; "email"] <= length [VStr "a"; VStr "b"; VStr "c"])
    by (simpl; lia).
  assert (H2 : length [VStr "a"] < length ["name"; "email"]) by (simpl; lia).
  assert (H3 : well_formed (alice MySQL)) by reflexivity.
  destruct (toMap_bounds ["name"; "email"] [VStr "a"; VStr "b"; VStr "c"] (alice MySQL) false)
    as (A & _ & C).
  destruct (toMap_bounds ["name"; "email"] [VStr "a"] (alice MySQL) false) as (_ & B & _).
  split; [exact H1|]. split; [rewrite (A H1); reflexivity|].
  split; [exact H2|]. split; [exact (B H2)|]. split; [exact H3|].
  destruct (C H3) as (kvs & Hk & _ & _). rewrite Hk. vm_compute in Hk.
  injection Hk as <-. reflexivity.
Defined.

Lemma relation_defaults_keep_explicit_witness :
  let ho := HasOneConfig.mk "header_pictures" "article_id" in
  let bt := BelongsToConfig.mk "articles" "article_id" "uid" in
  let btm := BelongsToManyConfig.mk "post_categories" "p" "c" "cats" "cid" in
  HasOneConfig.PropertyTable ho <> "" /\ HasOneConfig.PropertyForeignKey ho <> ""
  /\ HasOne_defaults singular ho (post MySQL) (comments MySQL) = ho
  /\ BelongsTo_defaults singular bt (posts MySQL) = bt
  /\ BelongsToMany_defaults_intermediate singular
       (BelongsToMany_defaults_foreign btm (category MySQL)) (category MySQL) (post MySQL)
     = btm.
Proof.
  intros ho bt btm.
  assert (H1 : HasOneConfig.PropertyTable ho <> "") by discriminate.
  assert (H2 : HasOneConfig.PropertyForeignKey ho <> "") by discriminate.
  split; [exact H1|]. split; [exact H2|].
  destruct (relation_defaults_keep_explicit singular (HasManyConfig.mk "x" "y") ho bt btm
              (category MySQL) (post MySQL) (posts MySQL))
    as (_ & _ & _ & _ & C1 & C2 & C3 & D0 & D1 & D2 & D3 & D4).
  destruct (relation_defaults_keep_explicit singular (HasManyConfig.mk "x" "y") ho bt btm
              (post MySQL) (post MySQL) (comments MySQL))
    as (_ & _ & B1 & B2 & _).
  split; [|split].
  - pose proof (B1 H1) as E1. pose proof (B2 H2) as E2.
    destruct (HasOne_defaults singular ho (post MySQL) (comments MySQL)) as [t k].
    simpl in E1, E2. subst. reflexivity.
  - assert (E1 := C1 ltac:(discriminate)). assert (E2 := C2 ltac:(discriminate)).
    assert (E3 := C3 ltac:(discriminate)).
    destruct (BelongsTo_defaults singular bt (posts MySQL)) as [a b c].
    simpl in E1, E2, E3. subst. reflexivity.
  - assert (E1 := D1 ltac:(discriminate)). assert (E2 := D2 ltac:(discriminate)).
    assert (E3 := D3 ltac:(discriminate)). assert (E4 := D4 ltac:(discriminate)).
    destruct (BelongsToMany_defaults_intermediate singular
                (BelongsToMany_defaults_foreign btm (category MySQL))
                (category MySQL) (post MySQL)) as [a b c d e].
    simpl in D0, E1, E2, E3, E4. subst. reflexivity.
Defined.


Lemma ownerID_index_position_witness :
  let id := mkField "id" true in
  let post_id := mkField "post_id" false in
  let body := mkField "body" false in
  Forall (fun f => Name f <> "post_id") [id; body]
  /\ ownerID_index 0 [id; body] "post_id" 0 = 0
  /\ Name post_id = "post_id"
  /\ Forall (fun f => Name f <> "post_id") [body]
  /\ ownerID_index 0 ([id] ++ post_id :: [body]) "post_id" 0 = 1.
Proof.
  intros id post_id body.
  assert (H1 : Forall (fun f => Name f <> "post_id") [id; body])
    by (repeat constructor; discriminate).
  assert (H2 : Name post_id = "post_id") by reflexivity.
  assert (H3 : Forall (fun f => Name f <> "post_id") [body])
    by (repeat constructor; discriminate).
  destruct (ownerID_index_position [id; body] [id] [body] post_id "post_id") as [A B].
  split; [exact H1|]. split; [exact (A H1)|]. split; [exact H2|]. split; [exact H3|].
  destruct (B H2 H3) as [E _]. exact E.
Defined.

Lemma BelongsTo_owner_id_witness :
  let c := BelongsToConfig.mk "" "" "" in
  relations (getSchemaFor (reply MySQL)) !! Table (getSchemaFor (post MySQL))
  = Some (RelBelongsTo c)
  /\ BelongsTo_defaults singular c (getSchemaFor (post MySQL))
     = BelongsToConfig.mk "posts" "post_id" "id"
  /\ genericValuesOf (reply MySQL) true = [VInt 31; VInt 7; VStr "first"]
  /\ calls (BelongsTo singular unit no_rows keep_one (post MySQL) (reply MySQL)) []
     = [db_QueryContext "SELECT * FROM posts WHERE id=?" [VInt 31]]
  /\ relations (getSchemaFor (bare MySQL)) !! Table (getSchemaFor (post MySQL))
     = Some (RelBelongsTo c)
  /\ BelongsTo singular unit no_rows keep_one (post MySQL) (bare MySQL) []
     = ([], Panicked "index out of range").
Proof.
  intros c.
  assert (Hr : relations (getSchemaFor (reply MySQL)) !! Table (getSchemaFor (post MySQL))
               = Some (RelBelongsTo c)) by (vm_compute; reflexivity).
  assert (Hb : relations (getSchemaFor (bare MySQL)) !! Table (getSchemaFor (post MySQL))
               = Some (RelBelongsTo c)) by (vm_compute; reflexivity).
  split; [exact Hr|]. split; [reflexivity|]. split; [reflexivity|].
  destruct (BelongsTo_owner_id singular unit no_rows keep_one (post MySQL) (reply MySQL) c []
              Hr) as (_ & A & _).
  destruct (BelongsTo_owner_id singular unit no_rows keep_one (post MySQL) (bare MySQL) c []
              Hb) as (_ & _ & B).
  split; [|split; [exact Hb | apply B; reflexivity]].
  rewrite (A (VInt 31)); [reflexivity | reflexivity | discriminate].
Defined.

Lemma Query_returns_no_rows_witness :
  result (QueryRaw unit no_rows bound_by_value (alice MySQL) "SELECT * FROM users" []) []
  = Returned ([], None)
  /\ ([] : list Entity) = [].
Proof.
  assert (H : result (QueryRaw unit no_rows bound_by_value (alice MySQL)
                        "SELECT * FROM users" []) [] = Returned ([], None)) by reflexivity.
  split; [exact H|].
  destruct (Query_returns_no_rows unit no_rows bound_by_value (alice MySQL) Select.zero
              "SELECT * FROM users" [] []) as (_ & _ & A & _).
  exact (A [] None H).
Defined.


Lemma Save_inserts_or_updates_witness :
  IsZero (genericGetPKValue (newcomer MySQL)) = Returned true
  /\ calls (Save inserted (newcomer MySQL)) []
     = [db_Exec "INSERT INTO users (name,email) VALUES (?,?)"
                [VStr "carol"; VStr "carol@example.org"]]
  /\ IsZero (genericGetPKValue (alice MySQL)) = Returned false
  /\ calls (Save inserted (alice MySQL)) []
     = [db_Exec "UPDATE users SET name=?,email=? WHERE id=?"
                [VStr "alice"; VStr "alice@example.org"; VInt 1]].
Proof.
  assert (H1 : IsZero (genericGetPKValue (newcomer MySQL)) = Returned true) by reflexivity.
  assert (H2 : IsZero (genericGetPKValue (alice MySQL)) = Returned false) by reflexivity.
  destruct (Save_inserts_or_updates inserted (newcomer MySQL) []) as (A & _).
  destruct (Save_inserts_or_updates inserted (alice MySQL) []) as (_ & B & _).
  split; [exact H1|]. split; [unfold calls; rewrite (A H1); reflexivity|].
  split; [exact H2|]. destruct (B H2) as [E _]. rewrite E. reflexivity.
Defined.

Lemma InsertAll_markers_witness :
  let objs := [alice PostgreSQL; bob PostgreSQL; alice PostgreSQL] in
  standard (getDialect (getSchemaFor (alice PostgreSQL))) "$"
  /\ clean "$" (getSchemaFor (alice PostgreSQL))
  /\ Forall (fun obj => getSchemaFor obj = getSchemaFor (alice PostgreSQL)) objs
  /\ markers PostgreSQL (fst (InsertAll_stmt (alice PostgreSQL) objs)) = 6
  /\ length (snd (InsertAll_stmt (alice PostgreSQL) objs)) = 3.
Proof.
  intros objs.
  assert (Hd : standard (getDialect (getSchemaFor (alice PostgreSQL))) "$")
    by (split; [reflexivity | right; reflexivity]).
  assert (Hc : clean "$" (getSchemaFor (alice PostgreSQL)))
    by (split; [reflexivity | repeat constructor]).
  assert (Hs : Forall (fun obj => getSchemaFor obj = getSchemaFor (alice PostgreSQL)) objs)
    by (repeat constructor).
  split; [exact Hd|]. split; [exact Hc|]. split; [exact Hs|].
  exact (InsertAll_markers (alice PostgreSQL) objs "$" Hd Hc Hs).
Defined.

Lemma single_statements_keep_markers_witness :
  well_formed (alice PostgreSQL)
  /\ standard (getDialect (getSchemaFor (alice PostgreSQL))) "$"
  /\ clean "$" (getSchemaFor (alice PostgreSQL))
  /\ markers PostgreSQL (fst (Insert_stmt (alice PostgreSQL))) = 2
  /\ markers PostgreSQL (fst (Delete_stmt (alice PostgreSQL))) = 1.
Proof.
  assert (Hw : well_formed (alice PostgreSQL)) by reflexivity.
  assert (Hd : standard (getDialect (getSchemaFor (alice PostgreSQL))) "$")
    by (split; [reflexivity | right; reflexivity]).
  assert (Hc : clean "$" (getSchemaFor (alice PostgreSQL)))
    by (split; [reflexivity | repeat constructor]).
  split; [exact Hw|]. split; [exact Hd|]. split; [exact Hc|].
  destruct (single_statements_keep_markers (alice PostgreSQL) (VInt 1) "$" Hw Hd Hc)
    as (A & _ & B & _).
  split; [exact (eq_trans A eq_refl) | exact (eq_trans B eq_refl)].
Defined.
End MoreWitnesses.
